(** * zep_python.memory.models: the client-side records of the memory service

    The module declares six pydantic (v1) models: [Session], [Summary],
    [Message], [Memory], [MemorySearchPayload] and [MemorySearchResult],
    and the enumeration [SearchScope].  Each class body is a table of
    fields (name, annotation, default); construction, validation,
    [dict()] and [==] are inherited from [BaseModel].

    The development has three layers:
    - Python values, their [==] and the error values;
    - what [BaseModel] does with a table of fields: the validators, the
      loop of [validate_model], [__init__], [dict()] and [__eq__];
    - the tables of models.py, then the properties of the records. *)

From Stdlib Require Import ZArith List String Bool Lia DecimalString.
From Stdlib Require Import Floats.SpecFloat.
Import ListNotations.
Open Scope string_scope.
Open Scope list_scope.

(** ** Python values *)

(** The values a field can hold or a caller can pass.  A dictionary is
    the list of its items in insertion order, with string keys (every
    mapping of the module is a [Dict[str, Any]] or a set of keyword
    arguments); an instance of a model carries the name of its class and
    its [__dict__], the fields in declaration order.  A float is given
    by its sign, mantissa and exponent, in the canonical form of a
    binary64 number, together with the identity of the float object:
    [==] tells a NaN from itself, but the comparison of the items of
    two containers does not, when the two are one object. *)
Unset Elimination Schemes.
Inductive value : Type :=
| VNone
| VBool (b : bool)
| VInt (z : Z)
| VFloat (f : spec_float) (id : nat)
| VStr (s : string)
| VList (items : list value)
| VDict (items : list (string * value))
| VModel (cls : string) (dict_ : list (string * value)).
Set Elimination Schemes.

Definition items_t : Type := list (string * value).

(** [d.get(k)]: the first item under the key. *)
Fixpoint dict_get (k : string) (d : items_t) : option value :=
  match d with
  | [] => None
  | (k', v) :: d' => if String.eqb k k' then Some v else dict_get k d'
  end.

Definition keys (d : items_t) : list string := map fst d.

(** Numbers compare across [bool], [int] and [float] by their exact
    mathematical value. *)
Definition int_of_bool (b : bool) : Z := if b then 1%Z else 0%Z.

Definition float_eq_int (f : spec_float) (z : Z) : bool :=
  match f with
  | S754_zero _ => (z =? 0)%Z
  | S754_finite s m e =>
      let n := if s then Z.neg m else Z.pos m in
      if (0 <=? e)%Z then (z =? n * 2 ^ e)%Z else (z * 2 ^ (- e) =? n)%Z
  | _ => false
  end.

Definition int_eq (x : Z) (b : value) : bool :=
  match b with
  | VBool y => (x =? int_of_bool y)%Z
  | VInt y => (x =? y)%Z
  | VFloat y _ => float_eq_int y x
  | _ => false
  end.

Definition float_eq (x : spec_float) (b : value) : bool :=
  match b with
  | VBool y => float_eq_int x (int_of_bool y)
  | VInt y => float_eq_int x y
  | VFloat y _ => SFeqb x y
  | _ => false
  end.

(** The items behind a mapping-like value: a dictionary, or an instance,
    which [BaseModel.__eq__] compares through its [dict()]. *)
Definition items_of (v : value) : option items_t :=
  match v with
  | VDict d | VModel _ d => Some d
  | _ => None
  end.

(** [x is y], as far as [==] can show it.  The items of two lists or
    dictionaries are compared by identity first and by [==] after
    ([PyObject_RichCompareBool]).  Every value here but a NaN is equal
    to itself, so the identity of two items decides the comparison only
    when both are the same NaN object. *)
Definition same_nan (a b : value) : bool :=
  match a, b with
  | VFloat S754_nan i, VFloat S754_nan j => Nat.eqb i j
  | _, _ => false
  end.

(** Two lists, item by item. *)
Fixpoint list_eq (eq : value -> value -> bool) (xs ys : list value) {struct xs} : bool :=
  match xs, ys with
  | [], [] => true
  | x :: xs', y :: ys' => eq x y && list_eq eq xs' ys'
  | _, _ => false
  end.

(** [len(d)]: the number of keys.  Where a list of items names a key
    twice, the dictionary holds the first of the two items, the one
    [dict_get] reads. *)
Fixpoint dict_len (d : items_t) : nat :=
  match d with
  | [] => 0
  | (k, _) :: d' => if existsb (String.eqb k) (keys d') then dict_len d' else S (dict_len d')
  end.

(** Every item that the dictionary holds has, under its key, an equal
    value in [d2].  [seen] are the keys met so far. *)
Fixpoint items_eq (eq : value -> value -> bool) (d2 : items_t) (seen : list string)
    (d : items_t) {struct d} : bool :=
  match d with
  | [] => true
  | (k, v) :: d' =>
      (if existsb (String.eqb k) seen then true
       else match dict_get k d2 with
            | Some v' => eq v v'
            | None => false
            end)
      && items_eq eq d2 (k :: seen) d'
  end.

(** Python's [a == b].  Lists compare item by item; dictionaries have
    equal length and, for every key of the left one, an equal value on
    the right (the order of the items plays no part).  Items are
    compared by identity first. *)
Fixpoint py_eq (a b : value) {struct a} : bool :=
  match a with
  | VNone => match b with VNone => true | _ => false end
  | VBool x => int_eq (int_of_bool x) b
  | VInt x => int_eq x b
  | VFloat x _ => float_eq x b
  | VStr x => match b with VStr y => String.eqb x y | _ => false end
  | VList xs =>
      match b with
      | VList ys => list_eq (fun x y => same_nan x y || py_eq x y) xs ys
      | _ => false
      end
  | VDict d1 | VModel _ d1 =>
      match items_of b with
      | Some d2 =>
          Nat.eqb (dict_len d1) (dict_len d2) &&
          items_eq (fun v v' => same_nan v v' || py_eq v v') d2 [] d1
      | None => false
      end
  end.

(** The comparison of two items of a container. *)
Definition item_eq (a b : value) : bool := same_nan a b || py_eq a b.

(** [_get_value(v, to_dict=True)]: instances become plain dictionaries,
    containers are rebuilt around their converted items. *)
Fixpoint get_value (v : value) : value :=
  match v with
  | VList l => VList (map get_value l)
  | VDict d => VDict (map (fun kv => (fst kv, get_value (snd kv))) d)
  | VModel _ d => VDict (map (fun kv => (fst kv, get_value (snd kv))) d)
  | _ => v
  end.

(** A value with no instance of a model anywhere inside. *)
Fixpoint plain (v : value) : bool :=
  match v with
  | VList l => forallb plain l
  | VDict d => forallb (fun kv => plain (snd kv)) d
  | VModel _ _ => false
  | _ => true
  end.

(** ** Errors *)

Inductive loc_item : Type :=
| Name (s : string)
| Index (i : nat).

Inductive error_type : Type :=
| MissingError
| NoneIsNotAllowedError
| StrError
| IntegerError
| FloatError
| ListError
| DictError
| ValueError.

(** One line of [ValidationError.errors()]: where, and what. *)
Definition ErrorWrapper : Type := (list loc_item * error_type)%type.

Inductive exception : Type :=
| ValidationError (errors : list ErrorWrapper) (model : string)
| AttributeError (cls attr : string).

Inductive outcome (A : Type) : Type :=
| Returns (a : A)
| Raises (e : exception).
Arguments Returns {A} a.
Arguments Raises {A} e.

Definition bind {A B : Type} (x : outcome A) (k : A -> outcome B) : outcome B :=
  match x with
  | Returns a => k a
  | Raises e => Raises e
  end.

(** ** Field tables *)

(** What stands right of [=] in a class body: nothing (the field is
    required), or a default.  [Field(x, ...)] and [Field(default=x, ...)]
    both give the default [x]: the first positional parameter of [Field]
    is [default]. *)
Inductive default_spec : Type :=
| Required
| Default (v : value).

Definition Field (default : value) : default_spec := Default default.

Record FieldDecl (T : Type) : Type := mkField {
  fname : string;
  annotation : T;
  fdefault : default_spec
}.
Arguments mkField {T} fname annotation fdefault.
Arguments fname {T} f.
Arguments annotation {T} f.
Arguments fdefault {T} f.

Record ClassDecl (T : Type) : Type := mkClass {
  cname : string;
  cfields : list (FieldDecl T);
  cmethods : list (string * (value -> value))
}.
Arguments mkClass {T} cname cfields cmethods.
Arguments cname {T} c.
Arguments cfields {T} c.
Arguments cmethods {T} c.

(** The annotations of the module: [str], [int], [float], [Any],
    [Optional[t]], [List[t]], [Dict[str, t]] and a model. *)
Unset Elimination Schemes.
Inductive ty : Type :=
| TStr
| TInt
| TFloat
| TAny
| TOptional (t : ty)
| TList (t : ty)
| TDict (t : ty)
| TModel (c : ClassDecl ty).
Set Elimination Schemes.

Definition ModelField : Type := FieldDecl ty.
Definition ModelClass : Type := ClassDecl ty.

(** [field.allow_none]: set for [Optional[...]] and for [Any]. *)
Definition allow_none (t : ty) : bool :=
  match t with
  | TOptional _ | TAny => true
  | _ => false
  end.

(** [isinstance(v, c)]; no model of the module subclasses another. *)
Definition isinstance (v : value) (c : ModelClass) : bool :=
  match v with
  | VModel n _ => String.eqb n (cname c)
  | _ => false
  end.

(** ** What BaseModel does with a table *)

(** The interpreter's conversions [str(v)], [int(v)], [float(v)] and
    [dict(v)], which the validators fall back on when a value is not of
    the declared type already.  They are not part of the module; the
    development holds for whatever they compute.  [None] stands for the
    call raising ([str()] raises on an [int] of too many digits).
    [float()] returns a float object: a number and an identity. *)
Record Builtins : Type := mkBuiltins {
  py_str : value -> option string;
  py_int : value -> option Z;
  py_float : value -> option (spec_float * nat);
  py_dict : value -> option items_t
}.

Definition result : Type := (list ErrorWrapper + value)%type.

Definition wrap (loc : list loc_item) (e : error_type) (r : option value) : result :=
  match r with
  | Some v => inr v
  | None => inl [(loc, e)]
  end.

Section Validators.
Variable py : Builtins.

(** [str_validator]: a [str] as it is, a number through [str()], whose
    [ValueError] is reported as it is; anything else is no [str]. *)
Definition str_validator (v : value) : error_type + value :=
  match v with
  | VStr _ => inr v
  | VBool _ | VInt _ | VFloat _ _ =>
      match py_str py v with
      | Some s => inr (VStr s)
      | None => inl ValueError
      end
  | _ => inl StrError
  end.

(** [int_validator]: an [int] that is not a [bool] as it is, anything
    else through [int()]. *)
Definition int_validator (v : value) : option value :=
  match v with
  | VInt _ => Some v
  | _ => option_map VInt (py_int py v)
  end.

(** [float_validator]: a [float] as it is, anything else through
    [float()].  ([float()] of an [int] beyond the range of a float
    raises [OverflowError], which no validator catches and which leaves
    the constructor as it is; here that call counts among the refused
    ones.  No record of the module has a required [float] field, and no
    property below turns on such an argument.) *)
Definition float_validator (v : value) : option value :=
  match v with
  | VFloat _ _ => Some v
  | _ => option_map (fun fi => VFloat (fst fi) (snd fi)) (py_float py v)
  end.

(** [list_validator]: of the values here only a [list] is
    sequence-like. *)
Definition list_validator (v : value) : option (list value) :=
  match v with
  | VList l => Some l
  | _ => None
  end.

(** [dict_validator]: a [dict] as it is, anything else through
    [dict()], which on an instance iterates its fields. *)
Definition dict_validator (v : value) : option items_t :=
  match v with
  | VDict d | VModel _ d => Some d
  | _ => py_dict py v
  end.

(** The loops below are those of [ModelField]: every item is
    validated, the errors are collected, the results kept in order. *)
Section Loops.
Variable validate_item : list loc_item -> value -> result.

(** [_validate_sequence_like]: item [i] is validated at [loc + (i,)]. *)
Fixpoint validate_sequence (loc : list loc_item) (i : nat) (l : list value)
  : list ErrorWrapper * list value :=
  match l with
  | [] => ([], [])
  | v :: l' =>
      let (errors, values) := validate_sequence loc (S i) l' in
      match validate_item (loc ++ [Index i]) v with
      | inl e => (e ++ errors, values)
      | inr v' => (errors, v' :: values)
      end
  end.

(** [_validate_mapping_like] of a [Dict[str, t]]: every key goes
    through the [str] validator, at [loc + ("__key__",)], and then the
    value under [k] is validated at [loc + (k,)].  (The keys of the
    dictionaries here are strings, which the key validator returns as
    they are.) *)
Fixpoint validate_mapping (loc : list loc_item) (d : items_t)
  : list ErrorWrapper * items_t :=
  match d with
  | [] => ([], [])
  | (k, v) :: d' =>
      let (errors, values) := validate_mapping loc d' in
      match str_validator (VStr k) with
      | inr (VStr k') =>
          match validate_item (loc ++ [Name k]) v with
          | inl e => (e ++ errors, values)
          | inr v' => (errors, (k', v') :: values)
          end
      | inr _ => ((loc ++ [Name "__key__"], StrError) :: errors, values)
      | inl e => ((loc ++ [Name "__key__"], e) :: errors, values)
      end
  end.
End Loops.

Section Model.
Variable field_validate : ty -> list loc_item -> value -> result.

(** The loop of [validate_model] over [__fields__]: a missing
    required field is an error, a missing field with a default takes
    the default unvalidated ([Config.validate_all] is off), a given
    value goes through the field's validation.  Keys of [input_data]
    that name no field are ignored ([Config.extra] is [ignore]). *)
Fixpoint validate_fields (fs : list ModelField) (loc : list loc_item)
    (input_data : items_t) : list ErrorWrapper * items_t :=
  match fs with
  | [] => ([], [])
  | f :: fs' =>
      let (errors, values) := validate_fields fs' loc input_data in
      match dict_get (fname f) input_data with
      | None =>
          match fdefault f with
          | Required => ((loc ++ [Name (fname f)], MissingError) :: errors, values)
          | Default d => (errors, (fname f, d) :: values)
          end
      | Some v =>
          match field_validate (annotation f) (loc ++ [Name (fname f)]) v with
          | inl e => (e ++ errors, values)
          | inr v' => (errors, (fname f, v') :: values)
          end
      end
  end.
End Model.

(** [ModelField.validate]: [None] is settled before any validator
    runs. *)
Definition none_check (validators : ty -> list loc_item -> value -> result)
    (t : ty) (loc : list loc_item) (v : value) : result :=
  match v with
  | VNone => if allow_none t then inr VNone else inl [(loc, NoneIsNotAllowedError)]
  | _ => validators t loc v
  end.

Definition finish {A : Type} (build : A -> value) (r : list ErrorWrapper * A) : result :=
  match r with
  | ([], a) => inr (build a)
  | (errors, _) => inl errors
  end.

(** The validators of an annotation applied to a value that is not
    [None] at top level.  An item of a list and a value of a dictionary
    go through the validation of the field of their own ([sub_fields]),
    [None] check included.  For a model this is [Model.validate]: an
    instance of the class is taken as it is (a shallow copy), a
    mapping is passed to the constructor, whose errors are reported
    under [loc]. *)
Fixpoint apply_validators (t : ty) (loc : list loc_item) (v : value) {struct t} : result :=
  match t with
  | TStr =>
      match str_validator v with
      | inr v' => inr v'
      | inl e => inl [(loc, e)]
      end
  | TInt => wrap loc IntegerError (int_validator v)
  | TFloat => wrap loc FloatError (float_validator v)
  | TAny => inr v
  | TOptional t' =>
      match v with
      | VNone => inr VNone
      | _ => apply_validators t' loc v
      end
  | TList t' =>
      match list_validator v with
      | None => inl [(loc, ListError)]
      | Some l => finish VList (validate_sequence (none_check apply_validators t') loc 0 l)
      end
  | TDict t' =>
      match dict_validator v with
      | None => inl [(loc, DictError)]
      | Some d => finish VDict (validate_mapping (none_check apply_validators t') loc d)
      end
  | TModel c =>
      if isinstance v c then inr v
      else
        match dict_validator v with
        | None => inl [(loc, DictError)]
        | Some d =>
            finish (VModel (cname c))
              (validate_fields (none_check apply_validators) (cfields c) loc d)
        end
  end.

Definition ModelField_validate : ty -> list loc_item -> value -> result :=
  none_check apply_validators.

Definition validate_model (c : ModelClass) (input_data : items_t)
  : list ErrorWrapper * items_t :=
  validate_fields ModelField_validate (cfields c) [] input_data.

(** [BaseModel.__init__] on keyword arguments: the validated values become the
    instance's [__dict__]; any error raises [ValidationError]. *)
Definition BaseModel_init (c : ModelClass) (data : items_t) : outcome value :=
  match validate_model c data with
  | ([], values) => Returns (VModel (cname c) values)
  | (errors, _) => Raises (ValidationError errors (cname c))
  end.
End Validators.

(** [BaseModel.dict()]. *)
Definition BaseModel_dict (self : value) : value := get_value self.

(** [BaseModel.__eq__]: the two [dict()]s are compared, or [dict()] and
    the other value when that is no model. *)
Definition BaseModel_eq (self other : value) : bool :=
  match other with
  | VModel _ _ => py_eq (BaseModel_dict self) (BaseModel_dict other)
  | _ => py_eq (BaseModel_dict self) other
  end.

(** [self.name], read from the instance's [__dict__]. *)
Definition getattr (self : value) (name : string) : option value :=
  match self with
  | VModel _ d => dict_get name d
  | _ => None
  end.

(** ** models.py *)

(** [class SearchScope(str, Enum)]. *)
Inductive SearchScope : Type :=
| messages
| summary.

Definition SearchScope_value (s : SearchScope) : string :=
  match s with
  | messages => "messages"
  | summary => "summary"
  end.

Definition Session : ModelClass :=
  mkClass "Session"
    [ mkField "uuid" (TOptional TStr) (Default VNone);
      mkField "id" (TOptional TInt) (Default VNone);
      mkField "created_at" (TOptional TStr) (Default VNone);
      mkField "updated_at" (TOptional TStr) (Default VNone);
      mkField "deleted_at" (TOptional TStr) (Default VNone);
      mkField "session_id" TStr Required;
      mkField "user_id" (TOptional TStr) (Default VNone);
      mkField "metadata" (TOptional (TDict TAny)) (Default VNone) ]
    [].

Definition Summary : ModelClass :=
  mkClass "Summary"
    [ mkField "uuid" TStr (Field (VStr "A uuid is required"));
      mkField "created_at" TStr (Field (VStr "A created_at is required"));
      mkField "content" TStr (Field (VStr "Content is required"));
      mkField "recent_message_uuid" TStr (Field (VStr "A recent_message_uuid is required"));
      mkField "token_count" TInt (Field (VStr "A token_count is required")) ]
    [ ("to_dict", fun self => BaseModel_dict self) ].

Definition Message : ModelClass :=
  mkClass "Message"
    [ mkField "role" TStr (Field (VStr "A role is required"));
      mkField "content" TStr (Field (VStr "Content is required"));
      mkField "uuid" (TOptional TStr) (Field VNone);
      mkField "created_at" (TOptional TStr) (Field VNone);
      mkField "token_count" (TOptional TInt) (Field VNone);
      mkField "metadata" (TOptional (TDict TAny)) (Field VNone) ]
    [ ("to_dict", fun self => BaseModel_dict self) ].

Definition Memory : ModelClass :=
  mkClass "Memory"
    [ mkField "messages" (TList (TModel Message)) (Field (VList []));
      mkField "metadata" (TOptional (TDict TAny)) (Field VNone);
      mkField "summary" (TOptional (TModel Summary)) (Field VNone);
      mkField "uuid" (TOptional TStr) (Field VNone);
      mkField "created_at" (TOptional TStr) (Field VNone);
      mkField "token_count" (TOptional TInt) (Field VNone) ]
    [ ("to_dict", fun self => BaseModel_dict self) ].

Definition MemorySearchPayload : ModelClass :=
  mkClass "MemorySearchPayload"
    [ mkField "text" (TOptional TStr) (Field VNone);
      mkField "metadata" (TOptional (TDict TAny)) (Field VNone);
      mkField "search_scope" (TOptional TStr) (Field (VStr "messages"));
      mkField "search_type" (TOptional TStr) (Field (VStr "similarity"));
      mkField "mmr_lambda" (TOptional TFloat) (Field VNone) ]
    [].

Definition MemorySearchResult : ModelClass :=
  mkClass "MemorySearchResult"
    [ mkField "message" (TOptional (TDict TAny)) (Default VNone);
      mkField "summary" (TOptional (TModel Summary)) (Default VNone);
      mkField "metadata" (TOptional (TDict TAny)) (Default VNone);
      mkField "dist" (TOptional TFloat) (Default VNone) ]
    [].

(** The record types of the module. *)
Definition models : list ModelClass :=
  [Session; Summary; Message; Memory; MemorySearchPayload; MemorySearchResult].

Definition type_of (self : value) : option ModelClass :=
  match self with
  | VModel n _ => find (fun c => String.eqb (cname c) n) models
  | _ => None
  end.

Fixpoint lookup_method (attr : string) (ms : list (string * (value -> value)))
  : option (value -> value) :=
  match ms with
  | [] => None
  | (n, body) :: ms' => if String.eqb attr n then Some body else lookup_method attr ms'
  end.

(** [self.to_dict()]: the method of the instance's own class.
    [BaseModel] defines [dict()] but no [to_dict], so on a class whose
    body has none the attribute lookup fails. *)
Definition to_dict (self : value) : outcome value :=
  match self with
  | VModel n _ =>
      match type_of self with
      | Some c =>
          match lookup_method "to_dict" (cmethods c) with
          | Some body => Returns (body self)
          | None => Raises (AttributeError n "to_dict")
          end
      | None => Raises (AttributeError n "to_dict")
      end
  | _ => Raises (AttributeError "" "to_dict")
  end.

(** An interpreter that refuses every conversion.  The worked examples
    below pass values that already have the declared types, and so
    never reach one. *)
Definition refusing : Builtins :=
  mkBuiltins (fun _ => None) (fun _ => None) (fun _ => None) (fun _ => None).

(** [str()] of a [bool] and of an [int], which has a limit of 4300
    digits. *)
Definition str_of_number (v : value) : option string :=
  match v with
  | VBool true => Some "True"
  | VBool false => Some "False"
  | VInt z =>
      if Nat.leb (String.length (NilZero.string_of_int (Z.to_int (Z.abs z)))) 4300 then
        Some (NilZero.string_of_int (Z.to_int z))
      else None
  | _ => None
  end.

(** An interpreter that prints a [bool] and an [int] as Python does and
    refuses every other conversion. *)
Definition printing : Builtins :=
  mkBuiltins str_of_number (fun _ => None) (fun _ => None) (fun _ => None).

(** ** Well-typed arguments and the round trip *)

(** The value already has the declared type, so that no validator has to
    convert it.  A [bool] is not taken for an [int]: the validator turns
    it into one. *)
Fixpoint has_type (t : ty) (v : value) {struct t} : bool :=
  match t with
  | TStr => match v with VStr _ => true | _ => false end
  | TInt => match v with VInt _ => true | _ => false end
  | TFloat => match v with VFloat _ _ => true | _ => false end
  | TAny => true
  | TOptional t' => match v with VNone => true | _ => has_type t' v end
  | TList t' => match v with VList l => forallb (has_type t') l | _ => false end
  | TDict t' =>
      match v with
      | VDict d => forallb (fun kv => has_type t' (snd kv)) d
      | _ => false
      end
  | TModel c => isinstance v c
  end.

(** The value a field is constructed with: the keyword argument, or the
    declared default when the argument is left out. *)
Definition constructed_with (f : ModelField) (kw : items_t) : option value :=
  match dict_get (fname f) kw with
  | Some v => Some v
  | None =>
      match fdefault f with
      | Default d => Some d
      | Required => None
      end
  end.

Definition field_ok (kw : items_t) (f : ModelField) : bool :=
  match dict_get (fname f) kw with
  | Some v => has_type (annotation f) v
  | None =>
      match fdefault f with
      | Default _ => true
      | Required => false
      end
  end.

(** A valid set of field values for a class: every required field is
    given and every given field has its declared type. *)
Definition valid_kwargs (c : ModelClass) (kw : items_t) : bool :=
  forallb (field_ok kw) (cfields c).

Definition binding (kw : items_t) (f : ModelField) : string * value :=
  (fname f,
   match constructed_with f kw with
   | Some v => v
   | None => VNone
   end).

(** Construction followed by [to_dict()] gives a mapping whose keys are
    the declared fields and whose values are the ones the record was
    constructed with, in the plain form of [dict()] (a value that holds
    no record is its own plain form). *)
Definition round_trip (py : Builtins) (c : ModelClass) (kw : items_t) : Prop :=
  exists self d,
    BaseModel_init py c kw = Returns self /\
    to_dict self = Returns (VDict d) /\
    keys d = map fname (cfields c) /\
    forall f, In f (cfields c) ->
      exists v, constructed_with f kw = Some v /\
                dict_get (fname f) d = Some (get_value v).

(** ** Equality of records, field by field *)


Fixpoint distinct (l : list string) : bool :=
  match l with
  | [] => true
  | k :: l' => negb (existsb (String.eqb k) l') && distinct l'
  end.

(** A value that is equal to itself: it holds no NaN, the one float
    that [==] tells apart from itself, and its dictionaries have one
    item per key, as every Python dictionary has. *)
Fixpoint regular (v : value) : bool :=
  match v with
  | VFloat S754_nan _ => false
  | VList l => forallb regular l
  | VDict d | VModel _ d =>
      distinct (map fst d) && forallb (fun kv => regular (snd kv)) d
  | _ => true
  end.

(** ** One field of the loop *)

(** What the loop of [validate_model] decides about one field: the
    value [v] it stores, which is the validated argument, or the default
    when the argument is left out. *)
Definition stores (py : Builtins) (kw : items_t) (loc : list loc_item)
    (f : ModelField) (v : value) : Prop :=
  match dict_get (fname f) kw with
  | Some x => ModelField_validate py (annotation f) (loc ++ [Name (fname f)]) x = inr v
  | None => fdefault f = Default v
  end.

(** A [bool], an [int] or a [float]: what [str_validator] turns into
    text. *)
Definition is_number (v : value) : bool :=
  match v with
  | VBool _ | VInt _ | VFloat _ _ => true
  | _ => false
  end.

(** ** Well-formed instances *)

(** The items of an instance against the fields of its class: one item
    per field, in declaration order, under the field's name. *)
Fixpoint fields_conform (conf : ty -> value -> bool) (fs : list ModelField) (d : items_t)
  {struct fs} : bool :=
  match fs, d with
  | [], [] => true
  | f :: fs', (k, x) :: d' =>
      String.eqb k (fname f) && conf (annotation f) x && fields_conform conf fs' d'
  | _, _ => false
  end.

(** The value has the declared type all the way down: where a record is
    declared stands an instance of that class whose fields, each in its
    place, have their declared types in turn.  (An instance that holds
    an unvalidated default of another type, as a [Summary] made without
    [token_count] does, is not of this kind.) *)
Fixpoint conforms (t : ty) (v : value) {struct t} : bool :=
  match t with
  | TStr => match v with VStr _ => true | _ => false end
  | TInt => match v with VInt _ => true | _ => false end
  | TFloat => match v with VFloat _ _ => true | _ => false end
  | TAny => true
  | TOptional t' => match v with VNone => true | _ => conforms t' v end
  | TList t' => match v with VList l => forallb (conforms t') l | _ => false end
  | TDict t' =>
      match v with
      | VDict d => forallb (fun kv => conforms t' (snd kv)) d
      | _ => false
      end
  | TModel c =>
      match v with
      | VModel n d =>
          String.eqb n (cname c) && distinct (map fname (cfields c)) &&
          fields_conform conforms (cfields c) d
      | _ => false
      end
  end.

(** Arguments from which a well-formed instance is constructed: every
    given value conforms to its field, and so does the default of every
    field left out. *)
Definition conforming_kwargs (c : ModelClass) (kw : items_t) : bool :=
  forallb
    (fun f =>
       match constructed_with f kw with
       | Some v => conforms (annotation f) v
       | None => false
       end)
    (cfields c).

(** Validating the plain form of a conforming value is accepted and
    gives a value with the same plain form. *)
Definition revalidates (py : Builtins) (t : ty) : Prop :=
  forall v loc, conforms t v = true ->
    exists v', apply_validators py t loc (get_value v) = inr v' /\
               get_value v' = get_value v.

(** ** Induction on nested values *)

Section value_induction.
Variable P : value -> Prop.
Hypothesis HNone : P VNone.
Hypothesis HBool : forall b, P (VBool b).
Hypothesis HInt : forall z, P (VInt z).
Hypothesis HFloat : forall f i, P (VFloat f i).
Hypothesis HStr : forall s, P (VStr s).
Hypothesis HList : forall l, Forall P l -> P (VList l).
Hypothesis HDict : forall d, Forall (fun kv => P (snd kv)) d -> P (VDict d).
Hypothesis HModel : forall n d, Forall (fun kv => P (snd kv)) d -> P (VModel n d).

Fixpoint value_ind (v : value) : P v :=
  let on_items :=
    fix on_items (d : items_t) : Forall (fun kv => P (snd kv)) d :=
      match d with
      | [] => Forall_nil _
      | kv :: d' => Forall_cons kv (value_ind (snd kv)) (on_items d')
      end in
  match v with
  | VNone => HNone
  | VBool b => HBool b
  | VInt z => HInt z
  | VFloat f i => HFloat f i
  | VStr s => HStr s
  | VList l =>
      HList l
        ((fix on_list (l : list value) : Forall P l :=
            match l with
            | [] => Forall_nil _
            | x :: l' => Forall_cons x (value_ind x) (on_list l')
            end) l)
  | VDict d => HDict d (on_items d)
  | VModel n d => HModel n d (on_items d)
  end.
End value_induction.

Section ty_induction.
Variable P : ty -> Prop.
Hypothesis HStr : P TStr.
Hypothesis HInt : P TInt.
Hypothesis HFloat : P TFloat.
Hypothesis HAny : P TAny.
Hypothesis HOptional : forall t, P t -> P (TOptional t).
Hypothesis HList : forall t, P t -> P (TList t).
Hypothesis HDict : forall t, P t -> P (TDict t).
Hypothesis HModel : forall c, P (TModel c).

Fixpoint ty_ind (t : ty) : P t :=
  match t with
  | TStr => HStr
  | TInt => HInt
  | TFloat => HFloat
  | TAny => HAny
  | TOptional t' => HOptional t' (ty_ind t')
  | TList t' => HList t' (ty_ind t')
  | TDict t' => HDict t' (ty_ind t')
  | TModel c => HModel c
  end.
End ty_induction.

Section ty_induction_nested.
Variable P : ty -> Prop.
Hypothesis HStr : P TStr.
Hypothesis HInt : P TInt.
Hypothesis HFloat : P TFloat.
Hypothesis HAny : P TAny.
Hypothesis HOptional : forall t, P t -> P (TOptional t).
Hypothesis HList : forall t, P t -> P (TList t).
Hypothesis HDict : forall t, P t -> P (TDict t).
Hypothesis HModel : forall c, Forall (fun f => P (annotation f)) (cfields c) -> P (TModel c).

Fixpoint ty_ind_nested (t : ty) : P t :=
  match t with
  | TStr => HStr
  | TInt => HInt
  | TFloat => HFloat
  | TAny => HAny
  | TOptional t' => HOptional t' (ty_ind_nested t')
  | TList t' => HList t' (ty_ind_nested t')
  | TDict t' => HDict t' (ty_ind_nested t')
  | TModel c =>
      HModel c
        ((fix on_fields (fs : list ModelField) : Forall (fun f => P (annotation f)) fs :=
            match fs with
            | [] => Forall_nil _
            | f :: fs' => Forall_cons f (ty_ind_nested (annotation f)) (on_fields fs')
            end) (cfields c))
  end.
End ty_induction_nested.

(** ** Dictionaries *)

Lemma dict_get_map_values (g : value -> value) (k : string) (d : items_t) :
  dict_get k (map (fun kv => (fst kv, g (snd kv))) d) = option_map g (dict_get k d).
Proof.
  induction d as [|[k' v] d IH]; simpl; [reflexivity|].
  destruct (String.eqb k k'); [reflexivity | exact IH].
Qed.

Lemma keys_map_values (g : value -> value) (d : items_t) :
  keys (map (fun kv => (fst kv, g (snd kv))) d) = keys d.
Proof.
  unfold keys. rewrite map_map. apply map_ext. reflexivity.
Qed.

Lemma dict_get_bindings (g : ModelField -> value) (fs : list ModelField) (f : ModelField) :
  NoDup (map fname fs) -> In f fs ->
  dict_get (fname f) (map (fun f' => (fname f', g f')) fs) = Some (g f).
Proof.
  induction fs as [|f0 fs IH]; intros Hnd Hin; [contradiction|].
  simpl in Hnd. inversion Hnd as [|? ? Hfresh Hnd']; subst.
  simpl. destruct Hin as [->|Hin].
  - rewrite String.eqb_refl. reflexivity.
  - destruct (String.eqb (fname f) (fname f0)) eqn:E.
    + apply String.eqb_eq in E. exfalso. apply Hfresh.
      rewrite <- E. apply in_map. exact Hin.
    + apply IH; assumption.
Qed.

(** ** Plain forms *)

Lemma plain_get_value (v : value) : plain (get_value v) = true.
Proof.
  induction v using value_ind; simpl; try reflexivity.
  - rewrite forallb_forall. intros x Hx. apply in_map_iff in Hx.
    destruct Hx as (y & <- & Hy). rewrite Forall_forall in H. apply H, Hy.
  - rewrite forallb_forall. intros x Hx. apply in_map_iff in Hx.
    destruct Hx as (y & <- & Hy). rewrite Forall_forall in H. apply (H y Hy).
  - rewrite forallb_forall. intros x Hx. apply in_map_iff in Hx.
    destruct Hx as (y & <- & Hy). rewrite Forall_forall in H. apply (H y Hy).
Qed.

Lemma get_value_plain (v : value) : plain v = true -> get_value v = v.
Proof.
  induction v using value_ind; simpl; intros Hp; try reflexivity; try discriminate.
  - f_equal. rewrite forallb_forall in Hp. rewrite Forall_forall in H.
    rewrite <- (map_id l) at 2. apply map_ext_in. intros x Hx. apply H; auto.
  - f_equal. rewrite forallb_forall in Hp. rewrite Forall_forall in H.
    rewrite <- (map_id d) at 2. apply map_ext_in. intros [k x] Hx. simpl.
    f_equal. apply (H (k, x) Hx). apply (Hp (k, x) Hx).
Qed.

(** ** Equality sees a record as its dictionary *)

Lemma int_eq_get_value (x : Z) (b : value) : int_eq x (get_value b) = int_eq x b.
Proof. destruct b; reflexivity. Qed.

Lemma float_eq_get_value (x : spec_float) (b : value) :
  float_eq x (get_value b) = float_eq x b.
Proof. destruct b; reflexivity. Qed.

Lemma same_nan_get_value (a b : value) :
  same_nan (get_value a) (get_value b) = same_nan a b.
Proof. destruct a, b; reflexivity. Qed.

Lemma items_of_get_value (b : value) :
  items_of (get_value b) =
  option_map (map (fun kv => (fst kv, get_value (snd kv)))) (items_of b).
Proof. destruct b; reflexivity. Qed.

Lemma dict_len_map_values (g : value -> value) (d : items_t) :
  dict_len (map (fun kv => (fst kv, g (snd kv))) d) = dict_len d.
Proof.
  induction d as [|[k v] d IH]; simpl; [reflexivity|].
  rewrite IH. pose proof (keys_map_values g d) as Hk. unfold keys in Hk.
  unfold keys. rewrite Hk. reflexivity.
Qed.

Lemma list_eq_map (eq eq' : value -> value -> bool) (g : value -> value) (xs : list value) :
  Forall (fun x => forall y, eq' (g x) (g y) = eq x y) xs ->
  forall ys, list_eq eq' (map g xs) (map g ys) = list_eq eq xs ys.
Proof.
  induction 1 as [|x xs Hx _ IH]; intros [|y ys]; simpl; try reflexivity.
  rewrite Hx, IH. reflexivity.
Qed.

Lemma items_eq_map (eq eq' : value -> value -> bool) (g : value -> value)
    (d2 d : items_t) :
  Forall (fun kv => forall y, eq' (g (snd kv)) (g y) = eq (snd kv) y) d ->
  forall seen,
    items_eq eq' (map (fun kv => (fst kv, g (snd kv))) d2) seen
      (map (fun kv => (fst kv, g (snd kv))) d) =
    items_eq eq d2 seen d.
Proof.
  induction 1 as [|[k v] d Hv _ IH]; intros seen; simpl; [reflexivity|].
  rewrite IH, dict_get_map_values.
  destruct (dict_get k d2) as [v'|]; simpl; [|reflexivity].
  simpl in Hv. rewrite Hv. reflexivity.
Qed.

Lemma py_eq_get_value (a other : value) :
  py_eq (get_value a) (get_value other) = py_eq a other.
Proof.
  revert other. induction a as [| | | | |xs IH|d1 IH|n d1 IH] using value_ind; intros other.
  - destruct other; reflexivity.
  - simpl. apply int_eq_get_value.
  - simpl. apply int_eq_get_value.
  - simpl. apply float_eq_get_value.
  - destruct other; reflexivity.
  - destruct other as [| | | | |ys| |]; try reflexivity. simpl.
    apply list_eq_map. eapply Forall_impl; [|exact IH].
    intros x Hx y. simpl. rewrite same_nan_get_value, Hx. reflexivity.
  - simpl. rewrite items_of_get_value.
    destruct (items_of other) as [d2|]; simpl; [|reflexivity].
    rewrite !dict_len_map_values. f_equal.
    apply items_eq_map. eapply Forall_impl; [|exact IH].
    intros kv Hkv y. simpl. rewrite same_nan_get_value, Hkv. reflexivity.
  - simpl. rewrite items_of_get_value.
    destruct (items_of other) as [d2|]; simpl; [|reflexivity].
    rewrite !dict_len_map_values. f_equal.
    apply items_eq_map. eapply Forall_impl; [|exact IH].
    intros kv Hkv y. simpl. rewrite same_nan_get_value, Hkv. reflexivity.
Qed.

(** ** Validation *)

Section ValidationFacts.
Variable py : Builtins.

Lemma validate_sequence_id (f : list loc_item -> value -> result) (l : list value) :
  Forall (fun v => forall loc, f loc v = inr v) l ->
  forall loc i, validate_sequence f loc i l = ([], l).
Proof.
  induction 1 as [|v l Hv _ IH]; intros loc i; simpl; [reflexivity|].
  rewrite IH, Hv. reflexivity.
Qed.

Lemma validate_mapping_id (f : list loc_item -> value -> result) (d : items_t) :
  Forall (fun kv => forall loc, f loc (snd kv) = inr (snd kv)) d ->
  forall loc, validate_mapping py f loc d = ([], d).
Proof.
  induction 1 as [|[k v] d Hv _ IH]; intros loc; simpl; [reflexivity|].
  rewrite IH. simpl in Hv. rewrite Hv. reflexivity.
Qed.

Lemma has_type_None_allow_none (t : ty) : has_type t VNone = true -> allow_none t = true.
Proof.
  destruct t; simpl; intros H; try discriminate H; reflexivity.
Qed.

Lemma none_check_has_type (t : ty) :
  (forall v loc, has_type t v = true -> apply_validators py t loc v = inr v) ->
  forall v loc, has_type t v = true -> none_check (apply_validators py) t loc v = inr v.
Proof.
  intros Ht v loc Hv. unfold none_check.
  destruct v; try (apply Ht; exact Hv).
  rewrite (has_type_None_allow_none t Hv). reflexivity.
Qed.

(** A value of the declared type passes its validators unchanged. *)
Lemma apply_validators_has_type (t : ty) :
  forall v loc, has_type t v = true -> apply_validators py t loc v = inr v.
Proof.
  induction t as [| | | |t IH|t IH|t IH|c] using ty_ind; intros v loc Ht; simpl in *.
  - destruct v; try discriminate. reflexivity.
  - destruct v; try discriminate. reflexivity.
  - destruct v; try discriminate. reflexivity.
  - reflexivity.
  - destruct v; try reflexivity; apply IH; exact Ht.
  - destruct v as [| | | | |l| |]; try discriminate. simpl.
    rewrite validate_sequence_id; [reflexivity|].
    rewrite forallb_forall in Ht. apply Forall_forall.
    intros x Hx loc'. apply (none_check_has_type t IH), Ht, Hx.
  - destruct v as [| | | | | |d|]; try discriminate. simpl.
    rewrite validate_mapping_id; [reflexivity|].
    rewrite forallb_forall in Ht. apply Forall_forall.
    intros x Hx loc'. apply (none_check_has_type t IH), (Ht x Hx).
  - rewrite Ht. reflexivity.
Qed.

Lemma ModelField_validate_has_type (t : ty) (v : value) (loc : list loc_item) :
  has_type t v = true -> ModelField_validate py t loc v = inr v.
Proof.
  apply none_check_has_type. intros v' loc'. apply apply_validators_has_type.
Qed.

(** Validators report at least one error when they fail. *)
Lemma finish_errors {A : Type} (build : A -> value) (r : list ErrorWrapper * A) e :
  finish build r = inl e -> e <> [].
Proof.
  destruct r as [[|e0 es] a]; simpl; intros H; [discriminate|].
  injection H as <-. discriminate.
Qed.

Lemma wrap_errors loc ek r e : wrap loc ek r = inl e -> e <> [].
Proof.
  destruct r; simpl; intros H; [discriminate|]. injection H as <-. discriminate.
Qed.

Lemma apply_validators_errors (t : ty) :
  forall v loc e, apply_validators py t loc v = inl e -> e <> [].
Proof.
  induction t as [| | | |t IH|t IH|t IH|c] using ty_ind; intros v loc e; simpl.
  - destruct (str_validator py v); intros H; [|discriminate].
    injection H as <-. discriminate.
  - apply wrap_errors.
  - apply wrap_errors.
  - discriminate.
  - destruct v; try apply IH. discriminate.
  - destruct (list_validator v); [apply finish_errors|].
    intros H; injection H as <-; discriminate.
  - destruct (dict_validator py v); [apply finish_errors|].
    intros H; injection H as <-; discriminate.
  - destruct (isinstance v c); [discriminate|].
    destruct (dict_validator py v); [apply finish_errors|].
    intros H; injection H as <-; discriminate.
Qed.

Lemma ModelField_validate_errors t v loc e :
  ModelField_validate py t loc v = inl e -> e <> [].
Proof.
  unfold ModelField_validate, none_check.
  destruct v; try apply apply_validators_errors.
  destruct (allow_none t); [discriminate|].
  intros H; injection H as <-; discriminate.
Qed.

(** With valid arguments the loop of [validate_model] reports nothing
    and binds every field, in order, to what it was constructed with. *)
Lemma validate_fields_valid (fs : list ModelField) (loc : list loc_item) (kw : items_t) :
  forallb (field_ok kw) fs = true ->
  validate_fields (ModelField_validate py) fs loc kw = ([], map (binding kw) fs).
Proof.
  induction fs as [|f fs IH]; simpl; [reflexivity|].
  intros H. apply andb_true_iff in H. destruct H as [Hf Hfs].
  rewrite (IH Hfs). unfold field_ok in Hf.
  assert (Hb : binding kw f =
               (fname f, match constructed_with f kw with Some v => v | None => VNone end))
    by reflexivity.
  rewrite Hb. unfold constructed_with.
  destruct (dict_get (fname f) kw) as [v|].
  - rewrite (ModelField_validate_has_type _ _ _ Hf). reflexivity.
  - destruct (fdefault f); [discriminate | reflexivity].
Qed.

Lemma BaseModel_init_valid (c : ModelClass) (kw : items_t) :
  valid_kwargs c kw = true ->
  BaseModel_init py c kw = Returns (VModel (cname c) (map (binding kw) (cfields c))).
Proof.
  intros H. unfold BaseModel_init, validate_model.
  rewrite (validate_fields_valid _ _ _ H). reflexivity.
Qed.

(** When the loop reports nothing, its values are the fields of the
    class, one each and in order. *)
Lemma validate_fields_keys (fs : list ModelField) (loc : list loc_item) (kw d : items_t) :
  validate_fields (ModelField_validate py) fs loc kw = ([], d) ->
  keys d = map fname fs.
Proof.
  revert d. induction fs as [|f fs IH]; simpl; intros d H.
  - injection H as <-. reflexivity.
  - destruct (validate_fields (ModelField_validate py) fs loc kw) as [errors values].
    destruct (dict_get (fname f) kw) as [v|].
    + destruct (ModelField_validate py (annotation f) (loc ++ [Name (fname f)]) v)
        as [e|v'] eqn:E.
      * injection H as H _. apply app_eq_nil in H. destruct H as [He _].
        exfalso. exact (ModelField_validate_errors _ _ _ _ E He).
      * injection H as -> <-. simpl. f_equal. apply IH. reflexivity.
    + destruct (fdefault f).
      * discriminate.
      * injection H as -> <-. simpl. f_equal. apply IH. reflexivity.
Qed.

Lemma BaseModel_init_returns (c : ModelClass) (kw : items_t) (self : value) :
  BaseModel_init py c kw = Returns self ->
  exists d, self = VModel (cname c) d /\ keys d = map fname (cfields c).
Proof.
  unfold BaseModel_init, validate_model.
  destruct (validate_fields (ModelField_validate py) (cfields c) [] kw)
    as [[|e errors] values] eqn:E; [|discriminate].
  intros H; injection H as <-. exists values. split; [reflexivity|].
  exact (validate_fields_keys _ _ _ _ E).
Qed.

(** A required field left out is reported as missing, whatever else
    is wrong with the arguments. *)
Lemma validate_fields_missing (fs : list ModelField) (loc : list loc_item)
    (kw : items_t) (f : ModelField) :
  In f fs -> fdefault f = Required -> dict_get (fname f) kw = None ->
  In (loc ++ [Name (fname f)], MissingError)
     (fst (validate_fields (ModelField_validate py) fs loc kw)).
Proof.
  intros Hin Hreq Hget. induction fs as [|f0 fs IH]; [contradiction|].
  simpl. destruct (validate_fields (ModelField_validate py) fs loc kw) as [errors values].
  simpl in IH. destruct Hin as [->|Hin].
  - rewrite Hget, Hreq. simpl. left. reflexivity.
  - specialize (IH Hin).
    destruct (dict_get (fname f0) kw) as [v|].
    + destruct (ModelField_validate py (annotation f0) (loc ++ [Name (fname f0)]) v);
        simpl; [apply in_or_app; right|]; exact IH.
    + destruct (fdefault f0); simpl; [right|]; exact IH.
Qed.

Lemma BaseModel_init_missing (c : ModelClass) (kw : items_t) (f : ModelField) :
  In f (cfields c) -> fdefault f = Required -> dict_get (fname f) kw = None ->
  exists errors,
    BaseModel_init py c kw = Raises (ValidationError errors (cname c)) /\
    In ([Name (fname f)], MissingError) errors.
Proof.
  intros Hin Hreq Hget.
  pose proof (validate_fields_missing (cfields c) [] kw f Hin Hreq Hget) as H.
  unfold BaseModel_init, validate_model.
  destruct (validate_fields (ModelField_validate py) (cfields c) [] kw)
    as [[|e errors] values]; simpl in H; [contradiction|].
  exists (e :: errors). split; [reflexivity | exact H].
Qed.
End ValidationFacts.

(** ** The records of the module *)

(** C3. [Message(role="user", content="hi")] is constructed, and its
    [to_dict()] is the mapping of the six declared fields: the two given
    values, [None] for [uuid], [created_at], [token_count] and
    [metadata], and no other key. *)
Theorem Message_user_hi_to_dict (py : Builtins) :
  exists self,
    BaseModel_init py Message [("role", VStr "user"); ("content", VStr "hi")] = Returns self /\
    to_dict self =
      Returns (VDict [("role", VStr "user"); ("content", VStr "hi"); ("uuid", VNone);
                      ("created_at", VNone); ("token_count", VNone); ("metadata", VNone)]).
Proof.
  eexists. split; reflexivity.
Qed.

(** C5. [MemorySearchPayload(text="hello")] has the defaults
    [search_scope == "messages"] and [search_type == "similarity"], and
    [metadata] and [mmr_lambda] are [None]. *)
Theorem MemorySearchPayload_text_only_defaults (py : Builtins) :
  exists self,
    BaseModel_init py MemorySearchPayload [("text", VStr "hello")] = Returns self /\
    getattr self "text" = Some (VStr "hello") /\
    getattr self "search_scope" = Some (VStr "messages") /\
    getattr self "search_type" = Some (VStr "similarity") /\
    getattr self "metadata" = Some VNone /\
    getattr self "mmr_lambda" = Some VNone.
Proof.
  eexists. split; [reflexivity|]. repeat split.
Qed.

(** C1, as the code has it: a [Message] without [role], without
    [content], or without both is constructed all the same, the omitted
    field holding the text of its [Field(...)]; no validation error is
    raised. *)
Theorem Message_without_role_or_content_is_constructed (py : Builtins) (s : string) :
  BaseModel_init py Message [("content", VStr s)] =
    Returns (VModel "Message"
               [("role", VStr "A role is required"); ("content", VStr s); ("uuid", VNone);
                ("created_at", VNone); ("token_count", VNone); ("metadata", VNone)]) /\
  BaseModel_init py Message [("role", VStr s)] =
    Returns (VModel "Message"
               [("role", VStr s); ("content", VStr "Content is required"); ("uuid", VNone);
                ("created_at", VNone); ("token_count", VNone); ("metadata", VNone)]) /\
  BaseModel_init py Message [] =
    Returns (VModel "Message"
               [("role", VStr "A role is required"); ("content", VStr "Content is required");
                ("uuid", VNone); ("created_at", VNone); ("token_count", VNone);
                ("metadata", VNone)]).
Proof.
  repeat split.
Qed.

(** C10. [Summary()] is constructed without a validation error; every
    field holds the text of its [Field(...)], and [token_count], declared
    [int], holds a [str]: a default is bound without being validated.
    [to_dict()] shows the same five values. *)
Theorem Summary_without_arguments_holds_placeholders (py : Builtins) :
  exists self,
    BaseModel_init py Summary [] = Returns self /\
    getattr self "uuid" = Some (VStr "A uuid is required") /\
    getattr self "created_at" = Some (VStr "A created_at is required") /\
    getattr self "content" = Some (VStr "Content is required") /\
    getattr self "recent_message_uuid" = Some (VStr "A recent_message_uuid is required") /\
    getattr self "token_count" = Some (VStr "A token_count is required") /\
    In (mkField "token_count" TInt (Field (VStr "A token_count is required"))) (cfields Summary) /\
    has_type TInt (VStr "A token_count is required") = false /\
    to_dict self =
      Returns (VDict [("uuid", VStr "A uuid is required");
                      ("created_at", VStr "A created_at is required");
                      ("content", VStr "Content is required");
                      ("recent_message_uuid", VStr "A recent_message_uuid is required");
                      ("token_count", VStr "A token_count is required")]).
Proof.
  eexists. split; [reflexivity|].
  repeat match goal with |- _ /\ _ => split end; try reflexivity.
  simpl. do 4 right. left. reflexivity.
Qed.

(** C4. A [Session] constructed without [session_id] raises a
    [ValidationError] that reports [session_id] as missing, whatever the
    other arguments; [Session(session_id=s)] is constructed, with every
    other field [None]. *)
Theorem Session_requires_session_id (py : Builtins) :
  (forall kw : items_t,
      dict_get "session_id" kw = None ->
      exists errors,
        BaseModel_init py Session kw = Raises (ValidationError errors "Session") /\
        In ([Name "session_id"], MissingError) errors) /\
  (forall s : string,
      BaseModel_init py Session [("session_id", VStr s)] =
        Returns (VModel "Session"
                   [("uuid", VNone); ("id", VNone); ("created_at", VNone);
                    ("updated_at", VNone); ("deleted_at", VNone);
                    ("session_id", VStr s); ("user_id", VNone); ("metadata", VNone)])).
Proof.
  split.
  - intros kw Hget.
    apply (BaseModel_init_missing py Session kw (mkField "session_id" TStr Required)).
    + simpl. do 5 right. left. reflexivity.
    + reflexivity.
    + exact Hget.
  - intros s. reflexivity.
Qed.

Lemma Session_requires_session_id_witness :
  exists errors,
    BaseModel_init refusing Session [("user_id", VStr "u1"); ("metadata", VDict [])] =
      Raises (ValidationError errors "Session") /\
    In ([Name "session_id"], MissingError) errors.
Proof.
  apply (proj1 (Session_requires_session_id refusing)). reflexivity.
Defined.

Lemma Memory_valid_init (py : Builtins) (kw : items_t) :
  valid_kwargs Memory kw = true ->
  exists d,
    BaseModel_init py Memory kw = Returns (VModel "Memory" d) /\
    d = map (binding kw) (cfields Memory) /\
    to_dict (VModel "Memory" d) =
      Returns (VDict (map (fun kv => (fst kv, get_value (snd kv))) d)).
Proof.
  intros Hvalid. exists (map (binding kw) (cfields Memory)).
  split; [exact (BaseModel_init_valid py Memory kw Hvalid)|].
  split; reflexivity.
Qed.

(** C6. A [Memory] constructed from valid arguments whose [messages] is
    the empty list, or is left out, has [messages == []], and not
    [None]; its [to_dict()] maps ["messages"] to [[]]. *)
Theorem Memory_empty_messages_is_empty_list (py : Builtins) (kw : items_t) :
  valid_kwargs Memory kw = true ->
  dict_get "messages" kw = None \/ dict_get "messages" kw = Some (VList []) ->
  exists self d,
    BaseModel_init py Memory kw = Returns self /\
    getattr self "messages" = Some (VList []) /\
    to_dict self = Returns (VDict d) /\
    dict_get "messages" d = Some (VList []).
Proof.
  intros Hvalid Hmessages.
  destruct (Memory_valid_init py kw Hvalid) as (d & Hinit & Hd & Hto).
  exists (VModel "Memory" d). eexists.
  split; [exact Hinit|]. split; [|split; [exact Hto|]].
  - subst d. simpl. unfold constructed_with. simpl.
    destruct Hmessages as [-> | ->]; reflexivity.
  - rewrite dict_get_map_values. subst d. simpl. unfold constructed_with. simpl.
    destruct Hmessages as [-> | ->]; reflexivity.
Qed.

Lemma Memory_empty_messages_is_empty_list_witness :
  exists self d,
    BaseModel_init refusing Memory [("messages", VList []); ("uuid", VStr "m1")] = Returns self /\
    getattr self "messages" = Some (VList []) /\
    to_dict self = Returns (VDict d) /\
    dict_get "messages" d = Some (VList []).
Proof.
  apply Memory_empty_messages_is_empty_list; [reflexivity | right; reflexivity].
Defined.

(** C9. For a [Memory] constructed from valid arguments, that is from a
    list [ms] of [Message] instances, [to_dict()] is a plain mapping
    (no record is left anywhere inside) whose ["messages"] entry is the
    list of the [dict()]s of the given messages, one for each and in the
    given order; a [Summary] given as [summary] appears as its
    [dict()]. *)
Theorem Memory_to_dict_expands_messages_in_order
    (py : Builtins) (kw : items_t) (ms : list value) :
  valid_kwargs Memory kw = true ->
  dict_get "messages" kw = Some (VList ms) ->
  exists self d,
    BaseModel_init py Memory kw = Returns self /\
    getattr self "messages" = Some (VList ms) /\
    forallb (fun m => isinstance m Message) ms = true /\
    to_dict self = Returns (VDict d) /\
    dict_get "messages" d = Some (VList (map BaseModel_dict ms)) /\
    (forall sm, dict_get "summary" kw = Some sm ->
                dict_get "summary" d = Some (BaseModel_dict sm) /\
                (sm = VNone \/ isinstance sm Summary = true)) /\
    plain (VDict d) = true.
Proof.
  intros Hvalid Hmessages.
  destruct (Memory_valid_init py kw Hvalid) as (d & Hinit & Hd & Hto).
  exists (VModel "Memory" d). eexists.
  split; [exact Hinit|].
  assert (Hd1 : dict_get "messages" d = Some (VList ms)).
  { subst d. simpl. unfold constructed_with. simpl. rewrite Hmessages. reflexivity. }
  split; [exact Hd1|].
  unfold valid_kwargs in Hvalid. simpl in Hvalid. unfold field_ok in Hvalid. simpl in Hvalid.
  rewrite Hmessages in Hvalid.
  apply andb_true_iff in Hvalid. destruct Hvalid as [Hms Hvalid].
  apply andb_true_iff in Hvalid. destruct Hvalid as [_ Hvalid].
  apply andb_true_iff in Hvalid. destruct Hvalid as [Hsm _].
  split; [exact Hms|]. split; [exact Hto|].
  split; [|split].
  - rewrite dict_get_map_values, Hd1. reflexivity.
  - intros sm Hsum. rewrite Hsum in Hsm. split.
    + rewrite dict_get_map_values. subst d. simpl. unfold constructed_with. simpl.
      rewrite Hsum. reflexivity.
    + destruct sm; try (right; exact Hsm). left. reflexivity.
  - change (plain (get_value (VModel "Memory" d)) = true). apply plain_get_value.
Qed.

Lemma Memory_to_dict_expands_messages_in_order_witness :
  let ms :=
    [VModel "Message"
       [("role", VStr "user"); ("content", VStr "hi"); ("uuid", VNone);
        ("created_at", VNone); ("token_count", VNone); ("metadata", VNone)];
     VModel "Message"
       [("role", VStr "assistant"); ("content", VStr "hello"); ("uuid", VNone);
        ("created_at", VNone); ("token_count", VNone); ("metadata", VNone)]] in
  let kw :=
    [("messages", VList ms);
     ("summary",
      VModel "Summary"
        [("uuid", VStr "s1"); ("created_at", VStr "2024-01-01T00:00:00Z");
         ("content", VStr "recap"); ("recent_message_uuid", VStr "m9");
         ("token_count", VInt 42)])] in
  exists self d,
    BaseModel_init refusing Memory kw = Returns self /\
    to_dict self = Returns (VDict d) /\
    dict_get "messages" d =
      Some (VList [VDict [("role", VStr "user"); ("content", VStr "hi"); ("uuid", VNone);
                          ("created_at", VNone); ("token_count", VNone); ("metadata", VNone)];
                   VDict [("role", VStr "assistant"); ("content", VStr "hello");
                          ("uuid", VNone); ("created_at", VNone); ("token_count", VNone);
                          ("metadata", VNone)]]).
Proof.
  intros ms kw.
  destruct (Memory_to_dict_expands_messages_in_order refusing kw ms eq_refl eq_refl)
    as (self & d & Hinit & _ & _ & Hto & Hd & _).
  exists self, d. repeat split; assumption.
Defined.

(** C8. Whatever the string [s], inside or outside ["messages"],
    ["summary"], ["similarity"] and ["mmr"], passing it as [search_scope]
    or as [search_type] next to valid arguments (or alone) constructs
    the payload, which holds [s] in that field: the two fields are
    validated as strings and nothing compares them with a closed set. *)
Theorem MemorySearchPayload_accepts_any_scope_and_type
    (py : Builtins) (s : string) (kw : items_t) :
  valid_kwargs MemorySearchPayload kw = true ->
  (exists self,
      BaseModel_init py MemorySearchPayload (("search_scope", VStr s) :: kw) = Returns self /\
      getattr self "search_scope" = Some (VStr s)) /\
  (exists self,
      BaseModel_init py MemorySearchPayload (("search_type", VStr s) :: kw) = Returns self /\
      getattr self "search_type" = Some (VStr s)).
Proof.
  intros Hvalid.
  unfold valid_kwargs, field_ok in Hvalid. simpl in Hvalid.
  repeat (apply andb_true_iff in Hvalid; destruct Hvalid as [? Hvalid]).
  split; eexists; (split; [apply BaseModel_init_valid | reflexivity]);
    unfold valid_kwargs, field_ok; simpl;
    repeat (apply andb_true_iff; split); auto.
Qed.

Lemma MemorySearchPayload_accepts_any_scope_and_type_witness :
  (forall sc : SearchScope, SearchScope_value sc <> "everything") /\
  (exists self,
      BaseModel_init refusing MemorySearchPayload
        [("search_scope", VStr "everything"); ("text", VStr "hello")] = Returns self /\
      getattr self "search_scope" = Some (VStr "everything")) /\
  (exists self,
      BaseModel_init refusing MemorySearchPayload
        [("search_type", VStr "everything"); ("text", VStr "hello")] = Returns self /\
      getattr self "search_type" = Some (VStr "everything")).
Proof.
  split; [intros [|]; discriminate|].
  apply MemorySearchPayload_accepts_any_scope_and_type. reflexivity.
Defined.

Lemma field_ok_constructed_with (kw : items_t) (f : ModelField) :
  field_ok kw f = true -> exists v, constructed_with f kw = Some v.
Proof.
  unfold field_ok, constructed_with.
  destruct (dict_get (fname f) kw) as [v|]; [eauto|].
  destruct (fdefault f); [discriminate | eauto].
Qed.

Lemma to_dict_classes_NoDup (c : ModelClass) :
  In c [Summary; Message; Memory] -> NoDup (map fname (cfields c)).
Proof.
  intros [<-|[<-|[<-|[]]]]; simpl;
    repeat (constructor; [simpl; intuition discriminate|]); constructor.
Qed.

(** C2, for the classes that define [to_dict()]: a [Summary], [Message]
    or [Memory] constructed from valid field values and then turned into
    a mapping by [to_dict()] has exactly the declared fields as keys,
    each bound to the value the record was constructed with (records
    nested in it in their [dict()] form). *)
Theorem to_dict_round_trip (py : Builtins) (c : ModelClass) (kw : items_t) :
  In c [Summary; Message; Memory] ->
  valid_kwargs c kw = true ->
  round_trip py c kw.
Proof.
  intros Hc Hvalid.
  exists (VModel (cname c) (map (binding kw) (cfields c))).
  exists (map (fun kv => (fst kv, get_value (snd kv))) (map (binding kw) (cfields c))).
  split; [exact (BaseModel_init_valid py c kw Hvalid)|].
  split; [destruct Hc as [<-|[<-|[<-|[]]]]; reflexivity|].
  split.
  - rewrite keys_map_values. unfold keys. rewrite map_map. reflexivity.
  - intros f Hf. unfold valid_kwargs in Hvalid. rewrite forallb_forall in Hvalid.
    destruct (field_ok_constructed_with kw f (Hvalid f Hf)) as [v Hv].
    exists v. split; [exact Hv|].
    rewrite dict_get_map_values.
    assert (Hb : dict_get (fname f) (map (binding kw) (cfields c)) =
                 Some (match constructed_with f kw with Some v' => v' | None => VNone end))
      by exact (dict_get_bindings
                  (fun f' => match constructed_with f' kw with Some v' => v' | None => VNone end)
                  (cfields c) f (to_dict_classes_NoDup c Hc) Hf).
    rewrite Hb, Hv. reflexivity.
Qed.

Lemma to_dict_round_trip_witness :
  round_trip refusing Summary
    [("uuid", VStr "s1"); ("created_at", VStr "2024-01-01T00:00:00Z");
     ("content", VStr "recap"); ("recent_message_uuid", VStr "m9");
     ("token_count", VInt 42)].
Proof.
  apply to_dict_round_trip; [simpl; auto | reflexivity].
Defined.

(** On an instance of a class whose body defines no [to_dict], the
    call is an attribute error, whatever the interpreter and the
    arguments the instance was constructed from. *)
Lemma to_dict_undefined (py : Builtins) (c : ModelClass) (kw : items_t) (self : value) :
  In c [Session; MemorySearchPayload; MemorySearchResult] ->
  BaseModel_init py c kw = Returns self ->
  to_dict self = Raises (AttributeError (cname c) "to_dict").
Proof.
  intros Hc Hinit. apply BaseModel_init_returns in Hinit.
  destruct Hinit as (d & -> & _).
  destruct Hc as [<-|[<-|[<-|[]]]]; reflexivity.
Qed.

(** C2, as stated for every record type, fails: [Session] (like
    [MemorySearchPayload] and [MemorySearchResult]) has no [to_dict],
    so on a valid [Session(session_id="s1")] the call raises
    [AttributeError] instead of giving a mapping. *)
Lemma to_dict_round_trip_fails_for_Session :
  In Session models /\
  valid_kwargs Session [("session_id", VStr "s1")] = true /\
  bind (BaseModel_init refusing Session [("session_id", VStr "s1")]) to_dict =
    Raises (AttributeError "Session" "to_dict") /\
  ~ round_trip refusing Session [("session_id", VStr "s1")].
Proof.
  split; [left; reflexivity|]. split; [reflexivity|]. split; [reflexivity|].
  intros (self & d & Hinit & Hto & _).
  vm_compute in Hinit. injection Hinit as <-.
  vm_compute in Hto. discriminate Hto.
Qed.

(** ** Equality of records *)

Lemma SFeqb_refl (f : spec_float) : f <> S754_nan -> SFeqb f f = true.
Proof.
  destruct f as [s|s| |s m e]; intros Hnan; unfold SFeqb; simpl.
  - reflexivity.
  - destruct s; reflexivity.
  - contradiction.
  - rewrite Z.compare_refl, Pos.compare_cont_refl. destruct s; reflexivity.
Qed.

Lemma dict_get_distinct (d : items_t) (k : string) (v : value) :
  distinct (map fst d) = true -> In (k, v) d -> dict_get k d = Some v.
Proof.
  induction d as [|[k0 v0] d IH]; simpl; intros Hd Hin; [contradiction|].
  apply andb_true_iff in Hd. destruct Hd as [Hfresh Hd].
  destruct Hin as [Heq|Hin].
  - injection Heq as -> ->. rewrite String.eqb_refl. reflexivity.
  - destruct (String.eqb k k0) eqn:E; [|apply IH; assumption].
    apply String.eqb_eq in E. subst k0. exfalso.
    apply negb_true_iff in Hfresh.
    assert (Hex : existsb (String.eqb k) (map fst d) = true).
    { apply existsb_exists. exists k. split; [|apply String.eqb_refl].
      change k with (fst (k, v)). apply in_map. exact Hin. }
    rewrite Hex in Hfresh. discriminate.
Qed.

Lemma dict_get_app_fresh (k : string) (pre d : items_t) :
  existsb (String.eqb k) (keys pre) = false -> dict_get k (pre ++ d) = dict_get k d.
Proof.
  induction pre as [|[k0 v0] pre IH]; simpl; intros H; [reflexivity|].
  apply orb_false_iff in H. destruct H as [Hk Hpre].
  rewrite Hk. apply IH. exact Hpre.
Qed.

(** A dictionary compared with itself: every item it holds is found
    under its key. *)
Lemma items_eq_refl (eq : value -> value -> bool) (d0 : items_t) :
  forall suf pre seen,
    d0 = pre ++ suf ->
    (forall k, existsb (String.eqb k) seen = existsb (String.eqb k) (keys pre)) ->
    Forall (fun kv => eq (snd kv) (snd kv) = true) suf ->
    items_eq eq d0 seen suf = true.
Proof.
  induction suf as [|[k v] suf IH]; intros pre seen Hd Hseen Hall; simpl; [reflexivity|].
  inversion Hall as [|? ? Hv Hsuf]; subst. simpl in Hv.
  apply andb_true_iff. split.
  - destruct (existsb (String.eqb k) seen) eqn:E; [reflexivity|].
    rewrite Hseen in E. rewrite (dict_get_app_fresh k pre _ E). simpl.
    rewrite String.eqb_refl. exact Hv.
  - apply (IH (pre ++ [(k, v)])).
    + rewrite <- app_assoc. reflexivity.
    + intros k'. simpl. unfold keys. rewrite map_app, existsb_app. simpl.
      fold (keys pre). rewrite <- Hseen, orb_false_r. apply orb_comm.
    + exact Hsuf.
Qed.

(** An item is equal to itself, whatever it is: a NaN by identity,
    anything else by [==]. *)
Lemma item_eq_refl (v : value) : item_eq v v = true.
Proof.
  unfold item_eq.
  induction v as [|b|z|f i|s|l IH|d IH|n d IH] using value_ind; simpl.
  - reflexivity.
  - apply Z.eqb_refl.
  - apply Z.eqb_refl.
  - destruct f as [s|s| |s m e]; simpl.
    + reflexivity.
    + unfold SFeqb. simpl. destruct s; reflexivity.
    + rewrite Nat.eqb_refl. reflexivity.
    + apply SFeqb_refl. discriminate.
  - apply String.eqb_refl.
  - induction IH as [|x l Hx _ IHl]; [reflexivity|].
    simpl. rewrite Hx. exact IHl.
  - rewrite Nat.eqb_refl. simpl.
    apply (items_eq_refl _ d d [] []); [reflexivity | reflexivity | exact IH].
  - rewrite Nat.eqb_refl. simpl.
    apply (items_eq_refl _ d d [] []); [reflexivity | reflexivity | exact IH].
Qed.

(** [==] is reflexive on every value but a NaN. *)
Lemma py_eq_refl_but_nan (v : value) : same_nan v v = false -> py_eq v v = true.
Proof.
  intros Hnan. pose proof (item_eq_refl v) as H. unfold item_eq in H.
  rewrite Hnan in H. exact H.
Qed.

(** [==] is reflexive on regular values. *)
Lemma py_eq_refl (v : value) : regular v = true -> py_eq v v = true.
Proof.
  intros Hreg. apply py_eq_refl_but_nan.
  destruct v as [| | |f i| | | |]; try reflexivity.
  destruct f; try reflexivity. discriminate Hreg.
Qed.


(** ** The loop of validate_model, field by field *)

Section FieldByField.
Variable py : Builtins.

Lemma validate_fields_agree (fs : list ModelField) (loc : list loc_item) (kw1 kw2 : items_t) :
  (forall f, In f fs -> dict_get (fname f) kw1 = dict_get (fname f) kw2) ->
  validate_fields (ModelField_validate py) fs loc kw1 =
  validate_fields (ModelField_validate py) fs loc kw2.
Proof.
  induction fs as [|f fs IH]; intros Hagree; simpl; [reflexivity|].
  rewrite IH by (intros f' Hf'; apply Hagree; right; exact Hf').
  rewrite (Hagree f (or_introl eq_refl)). reflexivity.
Qed.

Lemma validate_fields_stores (fs : list ModelField) (loc : list loc_item)
    (kw vals : items_t) (f : ModelField) :
  validate_fields (ModelField_validate py) fs loc kw = ([], vals) ->
  NoDup (map fname fs) -> In f fs ->
  exists v, dict_get (fname f) vals = Some v /\ stores py kw loc f v.
Proof.
  revert vals. induction fs as [|f0 fs IH]; intros vals Hrun Hnd Hin; [contradiction|].
  simpl in Hnd. inversion Hnd as [|? ? Hfresh Hnd']; subst.
  simpl in Hrun.
  destruct (validate_fields (ModelField_validate py) fs loc kw) as [errors values] eqn:Etail.
  assert (Htail : forall v0, errors = [] -> vals = (fname f0, v0) :: values ->
                  stores py kw loc f0 v0 ->
                  exists v, dict_get (fname f) vals = Some v /\ stores py kw loc f v).
  { intros v0 -> -> Hv0. destruct Hin as [->|Hin].
    - exists v0. simpl. rewrite String.eqb_refl. split; [reflexivity | exact Hv0].
    - destruct (IH values eq_refl Hnd' Hin) as (v & Hget & Hst).
      exists v. split; [|exact Hst]. simpl.
      destruct (String.eqb (fname f) (fname f0)) eqn:E; [|exact Hget].
      apply String.eqb_eq in E. exfalso. apply Hfresh. rewrite <- E.
      apply in_map. exact Hin. }
  unfold stores in Htail at 1.
  destruct (dict_get (fname f0) kw) as [x|].
  - destruct (ModelField_validate py (annotation f0) (loc ++ [Name (fname f0)]) x)
      as [e|v'] eqn:E.
    + injection Hrun as Herr _. apply app_eq_nil in Herr. destruct Herr as [He _].
      exfalso. exact (ModelField_validate_errors py _ _ _ _ E He).
    + injection Hrun as Herr Hvals. apply (Htail v'); auto.
  - destruct (fdefault f0) as [|d0].
    + discriminate Hrun.
    + injection Hrun as Herr Hvals. apply (Htail d0); auto.
Qed.

Lemma validate_fields_accepts (fs : list ModelField) (loc : list loc_item) (kw : items_t) :
  (forall f, In f fs -> exists v, stores py kw loc f v) ->
  exists vals, validate_fields (ModelField_validate py) fs loc kw = ([], vals).
Proof.
  induction fs as [|f fs IH]; intros Hall; simpl; [eauto|].
  destruct IH as [vals ->]; [intros f' Hf'; apply Hall; right; exact Hf'|].
  destruct (Hall f (or_introl eq_refl)) as [v Hv]. unfold stores in Hv.
  destruct (dict_get (fname f) kw) as [x|].
  - rewrite Hv. eauto.
  - rewrite Hv. eauto.
Qed.

Lemma validate_fields_accepted (fs : list ModelField) (loc : list loc_item)
    (kw vals : items_t) (f : ModelField) :
  validate_fields (ModelField_validate py) fs loc kw = ([], vals) ->
  In f fs -> exists v, stores py kw loc f v.
Proof.
  revert vals. induction fs as [|f0 fs IH]; intros vals Hrun Hin; [contradiction|].
  simpl in Hrun.
  destruct (validate_fields (ModelField_validate py) fs loc kw) as [errors values] eqn:Etail.
  unfold stores.
  destruct Hin as [->|Hin].
  - destruct (dict_get (fname f) kw) as [x|].
    + destruct (ModelField_validate py (annotation f) (loc ++ [Name (fname f)]) x)
        as [e|v'] eqn:E; [|eauto].
      injection Hrun as Herr _. apply app_eq_nil in Herr. destruct Herr as [He _].
      exfalso. exact (ModelField_validate_errors py _ _ _ _ E He).
    + destruct (fdefault f); [discriminate Hrun | eauto].
  - assert (Hnil : errors = []).
    { destruct (dict_get (fname f0) kw) as [x|].
      - destruct (ModelField_validate py (annotation f0) (loc ++ [Name (fname f0)]) x).
        + injection Hrun as Herr _. apply app_eq_nil in Herr. tauto.
        + injection Hrun as Herr _. exact Herr.
      - destruct (fdefault f0); [discriminate Hrun|].
        injection Hrun as Herr _. exact Herr. }
    subst errors. exact (IH values eq_refl Hin).
Qed.

Lemma validate_fields_reports (fs : list ModelField) (loc : list loc_item)
    (kw : items_t) (f : ModelField) (x : value) (e : list ErrorWrapper) :
  In f fs -> dict_get (fname f) kw = Some x ->
  ModelField_validate py (annotation f) (loc ++ [Name (fname f)]) x = inl e ->
  incl e (fst (validate_fields (ModelField_validate py) fs loc kw)).
Proof.
  intros Hin Hget Hval. induction fs as [|f0 fs IH]; [contradiction|].
  simpl. destruct (validate_fields (ModelField_validate py) fs loc kw) as [errors values].
  simpl in IH. destruct Hin as [->|Hin].
  - rewrite Hget, Hval. simpl. apply incl_appl, incl_refl.
  - specialize (IH Hin).
    destruct (dict_get (fname f0) kw) as [x0|].
    + destruct (ModelField_validate py (annotation f0) (loc ++ [Name (fname f0)]) x0);
        simpl; [apply incl_appr|]; exact IH.
    + destruct (fdefault f0); simpl; [apply incl_tl|]; exact IH.
Qed.

Lemma BaseModel_init_reports (c : ModelClass) (kw : items_t) (f : ModelField)
    (x : value) (e : list ErrorWrapper) :
  In f (cfields c) -> dict_get (fname f) kw = Some x ->
  ModelField_validate py (annotation f) [Name (fname f)] x = inl e ->
  exists errors,
    BaseModel_init py c kw = Raises (ValidationError errors (cname c)) /\ incl e errors.
Proof.
  intros Hin Hget Hval.
  pose proof (validate_fields_reports (cfields c) [] kw f x e Hin Hget Hval) as Hincl.
  pose proof (ModelField_validate_errors py _ _ _ _ Hval) as Hne.
  unfold BaseModel_init, validate_model.
  destruct (validate_fields (ModelField_validate py) (cfields c) [] kw)
    as [[|e0 errors] values]; simpl in Hincl.
  - destruct e as [|e1 e]; [contradiction|]. destruct (Hincl e1 (or_introl eq_refl)).
  - eauto.
Qed.

Lemma BaseModel_init_stores (c : ModelClass) (kw : items_t) (self : value) (f : ModelField) :
  BaseModel_init py c kw = Returns self ->
  NoDup (map fname (cfields c)) -> In f (cfields c) ->
  exists v, getattr self (fname f) = Some v /\ stores py kw [] f v.
Proof.
  unfold BaseModel_init, validate_model. intros Hinit Hnd Hin.
  destruct (validate_fields (ModelField_validate py) (cfields c) [] kw)
    as [[|e errors] values] eqn:E; [|discriminate].
  injection Hinit as <-. simpl.
  exact (validate_fields_stores _ _ _ _ _ E Hnd Hin).
Qed.
End FieldByField.

Lemma models_NoDup (c : ModelClass) : In c models -> NoDup (map fname (cfields c)).
Proof.
  intros [<-|[<-|[<-|[<-|[<-|[<-|[]]]]]]]; simpl;
    repeat (constructor; [simpl; intuition discriminate|]); constructor.
Qed.

(** ** What a constructed record holds *)

Section ValidatedTypes.
Variable py : Builtins.







End ValidatedTypes.





(** ** Every record type *)

(** X1. Whatever the arguments, an instance that is constructed carries
    exactly the fields its class declares, in declaration order, and so
    does its [dict()], which holds no record. *)
Theorem instance_has_declared_fields (py : Builtins) (c : ModelClass) (kw : items_t)
    (self : value) :
  BaseModel_init py c kw = Returns self ->
  exists d d',
    self = VModel (cname c) d /\
    keys d = map fname (cfields c) /\
    BaseModel_dict self = VDict d' /\
    keys d' = map fname (cfields c) /\
    plain (VDict d') = true.
Proof.
  intros Hinit. apply BaseModel_init_returns in Hinit. destruct Hinit as (d & -> & Hkeys).
  exists d. eexists. split; [reflexivity|]. split; [exact Hkeys|].
  split; [reflexivity|]. split.
  - rewrite keys_map_values. exact Hkeys.
  - change (plain (get_value (VModel (cname c) d)) = true). apply plain_get_value.
Qed.

Lemma instance_has_declared_fields_witness :
  exists self d d',
    BaseModel_init refusing MemorySearchResult
      [("message", VDict [("role", VStr "user")]); ("nickname", VStr "x")] = Returns self /\
    self = VModel (cname MemorySearchResult) d /\
    keys d = ["message"; "summary"; "metadata"; "dist"] /\
    BaseModel_dict self = VDict d' /\
    keys d' = ["message"; "summary"; "metadata"; "dist"] /\
    plain (VDict d') = true.
Proof.
  eexists.
  destruct (instance_has_declared_fields refusing MemorySearchResult
              [("message", VDict [("role", VStr "user")]); ("nickname", VStr "x")]
              _ eq_refl) as (d & d' & H).
  exists d, d'. split; [reflexivity | exact H].
Defined.

(** X2. In every record type, a field that has a default and is left
    out of the arguments holds that default, unvalidated, in the
    constructed instance. *)
Theorem omitted_field_holds_default (py : Builtins) (c : ModelClass) (kw : items_t)
    (self : value) (f : ModelField) (d : value) :
  In c models ->
  BaseModel_init py c kw = Returns self ->
  In f (cfields c) ->
  fdefault f = Default d ->
  dict_get (fname f) kw = None ->
  getattr self (fname f) = Some d.
Proof.
  intros Hc Hinit Hf Hdef Hget.
  destruct (BaseModel_init_stores py c kw self f Hinit (models_NoDup c Hc) Hf)
    as (v & Hattr & Hst).
  unfold stores in Hst. rewrite Hget, Hdef in Hst. injection Hst as <-. exact Hattr.
Qed.

Lemma omitted_field_holds_default_witness :
  exists self,
    BaseModel_init refusing MemorySearchPayload
      [("text", VStr "hello"); ("search_type", VStr "mmr")] = Returns self /\
    getattr self "search_scope" = Some (VStr "messages").
Proof.
  eexists. split; [reflexivity|].
  apply (omitted_field_holds_default refusing MemorySearchPayload
           [("text", VStr "hello"); ("search_type", VStr "mmr")] _
           (mkField "search_scope" (TOptional TStr) (Field (VStr "messages")))).
  - simpl. tauto.
  - reflexivity.
  - simpl. tauto.
  - reflexivity.
  - reflexivity.
Defined.

(** X3. Construction reads the arguments only under the names of the
    declared fields: two sets of arguments that agree there give the
    same outcome, so a keyword that names no field is ignored and the
    order of the keywords plays no part. *)
Theorem init_reads_declared_fields_only (py : Builtins) (c : ModelClass)
    (kw1 kw2 : items_t) :
  (forall f, In f (cfields c) -> dict_get (fname f) kw1 = dict_get (fname f) kw2) ->
  BaseModel_init py c kw1 = BaseModel_init py c kw2.
Proof.
  intros Hagree. unfold BaseModel_init, validate_model.
  rewrite (validate_fields_agree py (cfields c) [] kw1 kw2 Hagree). reflexivity.
Qed.

Lemma init_reads_declared_fields_only_witness :
  BaseModel_init refusing Message
    [("nickname", VStr "x"); ("content", VStr "hi"); ("role", VStr "user")] =
  BaseModel_init refusing Message [("role", VStr "user"); ("content", VStr "hi")].
Proof.
  apply init_reads_declared_fields_only.
  intros f Hf. simpl in Hf.
  destruct Hf as [<-|[<-|[<-|[<-|[<-|[<-|[]]]]]]]; reflexivity.
Defined.

(** X4. Fields are validated one by one and none constrains another:
    construction succeeds exactly when every declared field, taken
    alone, is accepted (its argument passes the field's validation, or
    it is left out and has a default). *)
Theorem init_succeeds_iff_every_field_accepted (py : Builtins) (c : ModelClass)
    (kw : items_t) :
  (exists self, BaseModel_init py c kw = Returns self) <->
  (forall f, In f (cfields c) -> exists v, stores py kw [] f v).
Proof.
  unfold BaseModel_init, validate_model. split.
  - intros [self Hinit] f Hf.
    destruct (validate_fields (ModelField_validate py) (cfields c) [] kw)
      as [[|e errors] values] eqn:E; [|discriminate].
    exact (validate_fields_accepted py _ _ _ _ f E Hf).
  - intros Hall.
    destruct (validate_fields_accepts py (cfields c) [] kw Hall) as [vals ->]. eauto.
Qed.

(** X5. [None] passed for a field that is not [Optional], as [role] or
    [content] of a [Message], [session_id], [messages] or any field of a
    [Summary], is refused: the constructor raises a [ValidationError]
    that reports "none is not an allowed value" at that field, whatever
    the other arguments. *)
Theorem None_refused_for_non_optional_field (py : Builtins) (c : ModelClass)
    (kw : items_t) (f : ModelField) :
  In f (cfields c) ->
  allow_none (annotation f) = false ->
  dict_get (fname f) kw = Some VNone ->
  exists errors,
    BaseModel_init py c kw = Raises (ValidationError errors (cname c)) /\
    In ([Name (fname f)], NoneIsNotAllowedError) errors.
Proof.
  intros Hf Hnone Hget.
  destruct (BaseModel_init_reports py c kw f VNone [([Name (fname f)], NoneIsNotAllowedError)]
              Hf Hget) as (errors & Hinit & Hincl).
  - unfold ModelField_validate, none_check. rewrite Hnone. reflexivity.
  - exists errors. split; [exact Hinit|]. apply Hincl. left. reflexivity.
Qed.

Lemma None_refused_for_non_optional_field_witness :
  exists errors,
    BaseModel_init refusing Message [("role", VNone); ("content", VStr "hi")] =
      Raises (ValidationError errors (cname Message)) /\
    In ([Name (fname (mkField "role" TStr (Field (VStr "A role is required"))))],
        NoneIsNotAllowedError) errors.
Proof.
  apply None_refused_for_non_optional_field.
  - simpl. tauto.
  - reflexivity.
  - reflexivity.
Defined.

Lemma field_of_name (fs : list ModelField) (f f' : ModelField) :
  NoDup (map fname fs) -> In f fs -> In f' fs -> fname f' = fname f -> f' = f.
Proof.
  induction fs as [|f0 fs IH]; intros Hnd Hf Hf' Hname; [contradiction|].
  simpl in Hnd. inversion Hnd as [|? ? Hfresh Hnd']; subst.
  destruct Hf as [->|Hf], Hf' as [->|Hf'].
  - reflexivity.
  - exfalso. apply Hfresh. rewrite <- Hname. apply in_map. exact Hf'.
  - exfalso. apply Hfresh. rewrite Hname. apply in_map. exact Hf.
  - apply IH; assumption.
Qed.

(** X6. A number passed for a field declared [str] or [Optional[str]]
    is neither refused nor kept as a number: when [str()] makes the
    text [t] of it, the field is accepted and holds [t], and the record
    is constructed as soon as its other fields are accepted.  ([str()]
    raises on an [int] of too many digits; the field is refused then.) *)
Theorem number_in_str_field_is_stored_as_text (py : Builtins) (c : ModelClass)
    (kw : items_t) (f : ModelField) (x : value) (t : string) :
  In c models ->
  In f (cfields c) ->
  annotation f = TStr \/ annotation f = TOptional TStr ->
  dict_get (fname f) kw = Some x ->
  is_number x = true ->
  py_str py x = Some t ->
  (forall f', In f' (cfields c) -> fname f' <> fname f -> exists v, stores py kw [] f' v) ->
  stores py kw [] f (VStr t) /\
  exists self,
    BaseModel_init py c kw = Returns self /\
    getattr self (fname f) = Some (VStr t).
Proof.
  intros Hc Hf Hann Hget Hnum Ht Hothers.
  assert (Hst : stores py kw [] f (VStr t)).
  { unfold stores. rewrite Hget. unfold ModelField_validate, none_check.
    destruct Hann as [-> | ->]; destruct x; try discriminate Hnum; simpl;
      rewrite Ht; reflexivity. }
  split; [exact Hst|].
  assert (Hall : forall f', In f' (cfields c) -> exists v, stores py kw [] f' v).
  { intros f' Hf'. destruct (String.eqb (fname f') (fname f)) eqn:E.
    - apply String.eqb_eq in E.
      rewrite (field_of_name (cfields c) f f' (models_NoDup c Hc) Hf Hf' E). eauto.
    - apply String.eqb_neq in E. apply Hothers; assumption. }
  destruct (validate_fields_accepts py (cfields c) [] kw Hall) as [vals Hvals].
  assert (Hinit : BaseModel_init py c kw = Returns (VModel (cname c) vals)).
  { unfold BaseModel_init, validate_model. rewrite Hvals. reflexivity. }
  exists (VModel (cname c) vals). split; [exact Hinit|].
  destruct (BaseModel_init_stores py c kw _ f Hinit (models_NoDup c Hc) Hf)
    as (v & Hattr & Hst').
  unfold stores in Hst, Hst'. rewrite Hget in Hst, Hst'. rewrite Hst in Hst'.
  injection Hst' as <-. exact Hattr.
Qed.

Lemma number_in_str_field_is_stored_as_text_witness :
  exists self,
    BaseModel_init printing Message [("role", VInt 5); ("content", VStr "hi")] =
      Returns self /\
    getattr self "role" = Some (VStr "5").
Proof.
  apply (proj2 (number_in_str_field_is_stored_as_text printing Message
                  [("role", VInt 5); ("content", VStr "hi")]
                  (mkField "role" TStr (Field (VStr "A role is required"))) (VInt 5) "5"
                  ltac:(simpl; tauto) ltac:(simpl; tauto) (or_introl eq_refl)
                  eq_refl eq_refl eq_refl
                  ltac:(intros f' Hf' Hname; simpl in Hf';
                        destruct Hf' as [<-|[<-|[<-|[<-|[<-|[<-|[]]]]]]];
                        try (exfalso; apply Hname; reflexivity);
                        eexists; reflexivity))).
Defined.

(** X7. [dict()], which every record type inherits, gives for valid
    arguments the mapping of all declared fields to the values the
    record was constructed with; on [Session], [MemorySearchPayload]
    and [MemorySearchResult] too, which have no [to_dict()].  The
    instance itself holds each given value unchanged. *)
Theorem dict_round_trip_for_every_record (py : Builtins) (c : ModelClass) (kw : items_t) :
  In c models ->
  valid_kwargs c kw = true ->
  exists self d,
    BaseModel_init py c kw = Returns self /\
    BaseModel_dict self = VDict d /\
    keys d = map fname (cfields c) /\
    forall f, In f (cfields c) ->
      exists v, constructed_with f kw = Some v /\
                getattr self (fname f) = Some v /\
                dict_get (fname f) d = Some (get_value v).
Proof.
  intros Hc Hvalid.
  exists (VModel (cname c) (map (binding kw) (cfields c))).
  exists (map (fun kv => (fst kv, get_value (snd kv))) (map (binding kw) (cfields c))).
  split; [exact (BaseModel_init_valid py c kw Hvalid)|].
  split; [reflexivity|]. split.
  - rewrite keys_map_values. unfold keys. rewrite map_map. reflexivity.
  - intros f Hf. unfold valid_kwargs in Hvalid. rewrite forallb_forall in Hvalid.
    destruct (field_ok_constructed_with kw f (Hvalid f Hf)) as [v Hv].
    assert (Hb : dict_get (fname f) (map (binding kw) (cfields c)) = Some v).
    { transitivity (Some (match constructed_with f kw with Some v' => v' | None => VNone end)).
      - exact (dict_get_bindings
                 (fun f' => match constructed_with f' kw with Some v' => v' | None => VNone end)
                 (cfields c) f (models_NoDup c Hc) Hf).
      - rewrite Hv. reflexivity. }
    exists v. split; [exact Hv|]. split; [exact Hb|].
    rewrite dict_get_map_values, Hb. reflexivity.
Qed.

Lemma dict_round_trip_for_every_record_witness :
  exists self d,
    BaseModel_init refusing Session
      [("session_id", VStr "s1"); ("metadata", VDict [("topic", VStr "tea")])] =
      Returns self /\
    BaseModel_dict self = VDict d /\
    keys d = ["uuid"; "id"; "created_at"; "updated_at"; "deleted_at"; "session_id";
              "user_id"; "metadata"] /\
    dict_get "metadata" d = Some (VDict [("topic", VStr "tea")]).
Proof.
  destruct (dict_round_trip_for_every_record refusing Session
              [("session_id", VStr "s1"); ("metadata", VDict [("topic", VStr "tea")])])
    as (self & d & Hinit & Hdict & Hkeys & Hfields).
  - simpl. tauto.
  - reflexivity.
  - exists self, d. split; [exact Hinit|]. split; [exact Hdict|]. split; [exact Hkeys|].
    destruct (Hfields (mkField "metadata" (TOptional (TDict TAny)) (Default VNone)))
      as (v & Hv & _ & Hd); [simpl; tauto|].
    injection Hv as <-. exact Hd.
Defined.

(** X8. [to_dict()] exists on the instances of [Summary], [Message] and
    [Memory], where it returns what [dict()] returns, and on no other
    record type: on an instance of [Session], [MemorySearchPayload] or
    [MemorySearchResult] the call raises [AttributeError]. *)
Theorem to_dict_is_dict_where_defined (py : Builtins) (c : ModelClass) (kw : items_t)
    (self : value) :
  In c models ->
  BaseModel_init py c kw = Returns self ->
  (In c [Summary; Message; Memory] /\ to_dict self = Returns (BaseModel_dict self)) \/
  (In c [Session; MemorySearchPayload; MemorySearchResult] /\
   to_dict self = Raises (AttributeError (cname c) "to_dict")).
Proof.
  intros Hc Hinit. apply BaseModel_init_returns in Hinit. destruct Hinit as (d & -> & _).
  simpl in Hc.
  destruct Hc as [<-|[<-|[<-|[<-|[<-|[<-|[]]]]]]];
    first [ left; split; [simpl; tauto | reflexivity]
          | right; split; [simpl; tauto | reflexivity] ].
Qed.

Lemma to_dict_is_dict_where_defined_witness :
  exists self,
    BaseModel_init refusing MemorySearchPayload [("text", VStr "hello")] = Returns self /\
    ((In MemorySearchPayload [Summary; Message; Memory] /\
      to_dict self = Returns (BaseModel_dict self)) \/
     (In MemorySearchPayload [Session; MemorySearchPayload; MemorySearchResult] /\
      to_dict self = Raises (AttributeError "MemorySearchPayload" "to_dict"))).
Proof.
  eexists. split; [reflexivity|].
  apply (to_dict_is_dict_where_defined refusing MemorySearchPayload [("text", VStr "hello")]).
  - simpl. tauto.
  - reflexivity.
Defined.

(** X9. The [message] of a [MemorySearchResult] is an untyped mapping:
    a dictionary whose keys are strings is stored as it is, whatever
    the keys and the values, with no field of [Message] required,
    defaulted or checked, and a [Message] instance passed there is
    stored as the dictionary of its fields, no longer a record. *)
Theorem MemorySearchResult_message_is_untyped (py : Builtins) :
  (forall d : items_t,
      BaseModel_init py MemorySearchResult [("message", VDict d)] =
        Returns (VModel "MemorySearchResult"
                   [("message", VDict d); ("summary", VNone); ("metadata", VNone);
                    ("dist", VNone)])) /\
  (forall (n : string) (d : items_t),
      BaseModel_init py MemorySearchResult [("message", VModel n d)] =
        Returns (VModel "MemorySearchResult"
                   [("message", VDict d); ("summary", VNone); ("metadata", VNone);
                    ("dist", VNone)])).
Proof.
  assert (Hmap : forall loc d,
             validate_mapping py (none_check (apply_validators py) TAny) loc d = ([], d)).
  { intros loc d. apply validate_mapping_id. apply Forall_forall.
    intros [k v] _ loc'. destruct v; reflexivity. }
  split; intros; unfold BaseModel_init, validate_model; simpl;
    unfold ModelField_validate, none_check; simpl; rewrite Hmap; reflexivity.
Qed.

(** ** Records inside records *)

Lemma validate_sequence_map (f : list loc_item -> value -> result) (g : value -> value)
    (l : list value) :
  Forall (fun v => forall loc, f loc v = inr (g v)) l ->
  forall loc i, validate_sequence f loc i l = ([], map g l).
Proof.
  induction 1 as [|v l Hv _ IH]; intros loc i; simpl; [reflexivity|].
  rewrite IH, Hv. reflexivity.
Qed.

Lemma validate_sequence_reports (f : list loc_item -> value -> result)
    (loc : list loc_item) (pre post : list value) (x : value) (e : list ErrorWrapper) :
  forall i,
    f (loc ++ [Index (i + List.length pre)]) x = inl e ->
    incl e (fst (validate_sequence f loc i (pre ++ x :: post))).
Proof.
  induction pre as [|p pre IH]; intros i Hx; simpl.
  - rewrite Nat.add_0_r in Hx.
    destruct (validate_sequence f loc (S i) post) as [errors values].
    rewrite Hx. simpl. apply incl_appl, incl_refl.
  - specialize (IH (S i)). simpl in Hx. rewrite <- Nat.add_succ_comm in Hx.
    specialize (IH Hx).
    destruct (validate_sequence f loc (S i) (pre ++ x :: post)) as [errors values].
    simpl in IH. destruct (f (loc ++ [Index i]) p); simpl; [apply incl_appr|]; exact IH.
Qed.

(** A mapping given where a record is declared goes through the
    constructor of that record. *)
Lemma apply_validators_model_of_dict (py : Builtins) (c : ModelClass) (d : items_t)
    (loc : list loc_item) :
  valid_kwargs c d = true ->
  apply_validators py (TModel c) loc (VDict d) =
    inr (VModel (cname c) (map (binding d) (cfields c))).
Proof.
  intros Hvalid. simpl.
  change (validate_fields (none_check (apply_validators py)) (cfields c) loc d)
    with (validate_fields (ModelField_validate py) (cfields c) loc d).
  rewrite (validate_fields_valid py _ loc d Hvalid). reflexivity.
Qed.

Lemma ModelField_validate_optional_model_of_dict (py : Builtins) (c : ModelClass)
    (d : items_t) (loc : list loc_item) :
  valid_kwargs c d = true ->
  ModelField_validate py (TOptional (TModel c)) loc (VDict d) =
    inr (VModel (cname c) (map (binding d) (cfields c))).
Proof.
  exact (apply_validators_model_of_dict py c d loc).
Qed.

Lemma ModelField_validate_models_of_dicts (py : Builtins) (c : ModelClass)
    (ds : list items_t) (loc : list loc_item) :
  forallb (valid_kwargs c) ds = true ->
  ModelField_validate py (TList (TModel c)) loc (VList (map VDict ds)) =
    inr (VList (map (fun d => VModel (cname c) (map (binding d) (cfields c))) ds)).
Proof.
  intros Hds. unfold ModelField_validate, none_check.
  cbn [apply_validators list_validator].
  assert (Hseq : forall i,
             validate_sequence (none_check (apply_validators py) (TModel c)) loc i
               (map VDict ds) =
             ([], map (fun d => VModel (cname c) (map (binding d) (cfields c))) ds)).
  { rewrite forallb_forall in Hds.
    induction ds as [|d ds IH]; intros i; [reflexivity|].
    cbn [map validate_sequence].
    rewrite IH by (intros x Hx; apply Hds; right; exact Hx).
    change (none_check (apply_validators py) (TModel c) (loc ++ [Index i]) (VDict d))
      with (apply_validators py (TModel c) (loc ++ [Index i]) (VDict d)).
    rewrite (apply_validators_model_of_dict py c d _ (Hds d (or_introl eq_refl))).
    reflexivity. }
  rewrite Hseq. reflexivity.
Qed.

(** X10. A [Memory] can be constructed from plain mappings, as they
    come out of a response: every dictionary of [messages] that is a
    valid set of [Message] arguments becomes a [Message], in the given
    order, and a dictionary given as [summary] becomes a [Summary];
    each takes the defaults of its class for the keys it lacks. *)
Theorem Memory_from_mappings (py : Builtins) (ds : list items_t) (ks : items_t) :
  forallb (valid_kwargs Message) ds = true ->
  valid_kwargs Summary ks = true ->
  BaseModel_init py Memory [("messages", VList (map VDict ds)); ("summary", VDict ks)] =
    Returns
      (VModel "Memory"
         [("messages",
           VList (map (fun d => VModel "Message" (map (binding d) (cfields Message))) ds));
          ("metadata", VNone);
          ("summary", VModel "Summary" (map (binding ks) (cfields Summary)));
          ("uuid", VNone); ("created_at", VNone); ("token_count", VNone)]).
Proof.
  intros Hds Hks.
  unfold BaseModel_init, validate_model.
  cbn [cfields Memory validate_fields fname annotation fdefault dict_get String.eqb
       Ascii.eqb Bool.eqb].
  rewrite (ModelField_validate_models_of_dicts py Message ds _ Hds).
  rewrite (ModelField_validate_optional_model_of_dict py Summary ks _ Hks).
  reflexivity.
Qed.

Lemma Memory_from_mappings_witness :
  BaseModel_init refusing Memory
    [("messages", VList (map VDict [[("role", VStr "user"); ("content", VStr "hi")]; []]));
     ("summary", VDict [("content", VStr "recap"); ("token_count", VInt 7)])] =
  Returns
    (VModel "Memory"
       [("messages",
         VList [VModel "Message"
                  [("role", VStr "user"); ("content", VStr "hi"); ("uuid", VNone);
                   ("created_at", VNone); ("token_count", VNone); ("metadata", VNone)];
                VModel "Message"
                  [("role", VStr "A role is required"); ("content", VStr "Content is required");
                   ("uuid", VNone); ("created_at", VNone); ("token_count", VNone);
                   ("metadata", VNone)]]);
        ("metadata", VNone);
        ("summary",
         VModel "Summary"
           [("uuid", VStr "A uuid is required");
            ("created_at", VStr "A created_at is required");
            ("content", VStr "recap");
            ("recent_message_uuid", VStr "A recent_message_uuid is required");
            ("token_count", VInt 7)]);
        ("uuid", VNone); ("created_at", VNone); ("token_count", VNone)]).
Proof.
  exact (Memory_from_mappings refusing
           [[("role", VStr "user"); ("content", VStr "hi")]; []]
           [("content", VStr "recap"); ("token_count", VInt 7)] eq_refl eq_refl).
Defined.

Lemma finish_inl {A : Type} (build : A -> value) (errors : list ErrorWrapper) (a : A) :
  errors <> [] -> finish build (errors, a) = inl errors.
Proof.
  destruct errors; [contradiction | reflexivity].
Qed.

Lemma incl_not_nil {A : Type} (x : A) (l : list A) : In x l -> l <> [].
Proof.
  intros Hin ->. exact Hin.
Qed.

Lemma ModelField_validate_list (py : Builtins) (t : ty) (loc : list loc_item)
    (l : list value) :
  ModelField_validate py (TList t) loc (VList l) =
    finish VList (validate_sequence (ModelField_validate py t) loc 0 l).
Proof. reflexivity. Qed.

(** X11. A message that is refused is reported with its position: when
    the mapping at index [i] of [messages] gives [None] for [role] or
    [content], the [ValidationError] of the [Memory] has the entry
    [("messages", i, field)], whatever stands before and after it in
    the list and whatever the other arguments. *)
Theorem Memory_reports_position_of_refused_message (py : Builtins) (kw : items_t)
    (pre post : list value) (d : items_t) (f : ModelField) :
  dict_get "messages" kw = Some (VList (pre ++ VDict d :: post)) ->
  In f (cfields Message) ->
  allow_none (annotation f) = false ->
  dict_get (fname f) d = Some VNone ->
  exists errors,
    BaseModel_init py Memory kw = Raises (ValidationError errors "Memory") /\
    In ([Name "messages"; Index (List.length pre); Name (fname f)], NoneIsNotAllowedError)
       errors.
Proof.
  intros Hget Hf Hnone Hd.
  set (loc := [Name "messages"; Index (List.length pre)]).
  set (target := (loc ++ [Name (fname f)], NoneIsNotAllowedError)).
  (* the message itself is refused *)
  assert (Hfield : In target
            (fst (validate_fields (ModelField_validate py) (cfields Message) loc d))).
  { apply (validate_fields_reports py (cfields Message) loc d f VNone [target] Hf Hd).
    - unfold ModelField_validate, none_check. rewrite Hnone. reflexivity.
    - left. reflexivity. }
  assert (Hitem : exists e,
            apply_validators py (TModel Message) loc (VDict d) = inl e /\ In target e).
  { cbn [apply_validators isinstance dict_validator].
    change (validate_fields (none_check (apply_validators py)) (cfields Message) loc d)
      with (validate_fields (ModelField_validate py) (cfields Message) loc d).
    destruct (validate_fields (ModelField_validate py) (cfields Message) loc d)
      as [errors values]. simpl in Hfield.
    exists errors. split; [|exact Hfield].
    apply finish_inl. exact (incl_not_nil _ _ Hfield). }
  destruct Hitem as (e & He & Hte).
  (* so is the list, at that index *)
  pose proof (validate_sequence_reports (ModelField_validate py (TModel Message))
                [Name "messages"] pre post (VDict d) e 0 He) as Hseq.
  destruct (BaseModel_init_reports py Memory kw
              (mkField "messages" (TList (TModel Message)) (Field (VList [])))
              (VList (pre ++ VDict d :: post))
              (fst (validate_sequence (ModelField_validate py (TModel Message))
                      [Name "messages"] 0 (pre ++ VDict d :: post))))
    as (errors & Hinit & Hincl).
  - simpl. tauto.
  - exact Hget.
  - cbn [annotation fname]. rewrite ModelField_validate_list.
    destruct (validate_sequence (ModelField_validate py (TModel Message))
                [Name "messages"] 0 (pre ++ VDict d :: post))
      as [errs vals]. simpl in Hseq |- *.
    apply finish_inl. exact (incl_not_nil _ _ (Hseq _ Hte)).
  - exists errors. split; [exact Hinit|]. apply Hincl, Hseq, Hte.
Qed.

Lemma Memory_reports_position_of_refused_message_witness :
  exists errors,
    BaseModel_init refusing Memory
      [("messages",
        VList [VDict [("role", VStr "user"); ("content", VStr "hi")];
               VDict [("role", VStr "user"); ("content", VNone)];
               VDict []])] =
      Raises (ValidationError errors "Memory") /\
    In ([Name "messages"; Index 1; Name "content"], NoneIsNotAllowedError) errors.
Proof.
  apply (Memory_reports_position_of_refused_message refusing _
           [VDict [("role", VStr "user"); ("content", VStr "hi")]] [VDict []]
           [("role", VStr "user"); ("content", VNone)]
           (mkField "content" TStr (Field (VStr "Content is required")))).
  - reflexivity.
  - simpl. tauto.
  - reflexivity.
  - reflexivity.
Defined.

(** X12. A [Summary] constructed without [token_count] cannot be
    constructed again from its own [to_dict()]: the mapping carries the
    placeholder text under [token_count], and given as an argument the
    text goes through the [int] validator, which refuses it as soon as
    [int()] does. *)
Theorem Summary_placeholder_token_count_is_not_reaccepted (py : Builtins) (kw : items_t)
    (self : value) (d : items_t) :
  py_int py (VStr "A token_count is required") = None ->
  dict_get "token_count" kw = None ->
  BaseModel_init py Summary kw = Returns self ->
  to_dict self = Returns (VDict d) ->
  exists errors,
    BaseModel_init py Summary d = Raises (ValidationError errors "Summary") /\
    In ([Name "token_count"], IntegerError) errors.
Proof.
  intros Hint Hget Hinit Hto.
  set (f := mkField "token_count" TInt (Field (VStr "A token_count is required"))).
  assert (Hf : In f (cfields Summary)) by (simpl; tauto).
  assert (Hc : In Summary models) by (simpl; tauto).
  destruct (BaseModel_init_stores py Summary kw self f Hinit (models_NoDup _ Hc) Hf)
    as (v & Hattr & Hst).
  unfold stores in Hst. change (fname f) with "token_count" in Hst, Hattr.
  rewrite Hget in Hst. injection Hst as <-.
  apply BaseModel_init_returns in Hinit. destruct Hinit as (vals & -> & _).
  injection Hto as <-.
  destruct (BaseModel_init_reports py Summary
              (map (fun kv => (fst kv, get_value (snd kv))) vals) f
              (VStr "A token_count is required")
              [([Name "token_count"], IntegerError)] Hf) as (errors & Hraise & Hincl).
  - rewrite dict_get_map_values. simpl in Hattr.
    change (fname f) with "token_count". rewrite Hattr. reflexivity.
  - unfold ModelField_validate, none_check. simpl. rewrite Hint. reflexivity.
  - exists errors. split; [exact Hraise|]. apply Hincl. left. reflexivity.
Qed.

Lemma Summary_placeholder_token_count_is_not_reaccepted_witness :
  exists self d errors,
    BaseModel_init refusing Summary [("content", VStr "recap")] = Returns self /\
    to_dict self = Returns (VDict d) /\
    BaseModel_init refusing Summary d = Raises (ValidationError errors "Summary") /\
    In ([Name "token_count"], IntegerError) errors.
Proof.
  do 2 eexists.
  destruct (Summary_placeholder_token_count_is_not_reaccepted refusing
              [("content", VStr "recap")] _ _ eq_refl eq_refl eq_refl eq_refl)
    as (errors & Hraise & Hin).
  exists errors. split; [reflexivity|]. split; [reflexivity|]. split; assumption.
Defined.

(** ** From the mapping back to the record *)

Lemma get_value_idempotent (v : value) : get_value (get_value v) = get_value v.
Proof.
  apply get_value_plain, plain_get_value.
Qed.

Lemma conforms_None_allow_none (t : ty) : conforms t VNone = true -> allow_none t = true.
Proof.
  destruct t; simpl; intros H; try discriminate H; reflexivity.
Qed.

Lemma fields_conform_keys (conf : ty -> value -> bool) (fs : list ModelField) (d : items_t) :
  fields_conform conf fs d = true -> keys d = map fname fs.
Proof.
  revert d. induction fs as [|f fs IH]; intros [|[k x] d]; simpl; intros H;
    try discriminate H; [reflexivity|].
  apply andb_true_iff in H. destruct H as [H Hrest].
  apply andb_true_iff in H. destruct H as [Hk _].
  apply String.eqb_eq in Hk. subst k. f_equal. apply IH. exact Hrest.
Qed.

Lemma regular_get_value (v : value) : regular v = true -> regular (get_value v) = true.
Proof.
  induction v as [|b|z|f|s|l IH|d IH|n d IH] using value_ind; simpl; intros Hreg;
    try exact Hreg.
  - rewrite forallb_forall in Hreg |- *. rewrite Forall_forall in IH.
    intros x Hx. apply in_map_iff in Hx. destruct Hx as (y & <- & Hy). auto.
  - apply andb_true_iff in Hreg. destruct Hreg as [Hkeys Hvals].
    pose proof (keys_map_values get_value d) as Hk. unfold keys in Hk.
    rewrite Hk, Hkeys. simpl.
    rewrite forallb_forall in Hvals |- *. rewrite Forall_forall in IH.
    intros x Hx. apply in_map_iff in Hx. destruct Hx as (y & <- & Hy). simpl. auto.
  - apply andb_true_iff in Hreg. destruct Hreg as [Hkeys Hvals].
    pose proof (keys_map_values get_value d) as Hk. unfold keys in Hk.
    rewrite Hk, Hkeys. simpl.
    rewrite forallb_forall in Hvals |- *. rewrite Forall_forall in IH.
    intros x Hx. apply in_map_iff in Hx. destruct Hx as (y & <- & Hy). simpl. auto.
Qed.

Section RoundTrip.
Variable py : Builtins.

Lemma apply_validators_list (t : ty) (loc : list loc_item) (l : list value) :
  apply_validators py (TList t) loc (VList l) =
    finish VList (validate_sequence (ModelField_validate py t) loc 0 l).
Proof. reflexivity. Qed.

Lemma apply_validators_dict (t : ty) (loc : list loc_item) (d : items_t) :
  apply_validators py (TDict t) loc (VDict d) =
    finish VDict (validate_mapping py (ModelField_validate py t) loc d).
Proof. reflexivity. Qed.

Lemma apply_validators_model (c : ModelClass) (loc : list loc_item) (d : items_t) :
  apply_validators py (TModel c) loc (VDict d) =
    finish (VModel (cname c)) (validate_fields (ModelField_validate py) (cfields c) loc d).
Proof. reflexivity. Qed.

Lemma field_revalidates (t : ty) (x : value) (loc : list loc_item) :
  revalidates py t -> conforms t x = true ->
  exists x', ModelField_validate py t loc (get_value x) = inr x' /\
             get_value x' = get_value x.
Proof.
  intros Ht Hconf. destruct x; try exact (Ht _ loc Hconf).
  exists VNone. split; [|reflexivity].
  unfold ModelField_validate, none_check. simpl.
  rewrite (conforms_None_allow_none t Hconf). reflexivity.
Qed.

Lemma validate_fields_revalidates (fs : list ModelField) (loc : list loc_item)
    (input : items_t) :
  Forall (fun f => revalidates py (annotation f)) fs ->
  forall d,
    fields_conform conforms fs d = true ->
    (forall k x, In (k, x) d -> dict_get k input = Some (get_value x)) ->
    exists vals,
      validate_fields (ModelField_validate py) fs loc input = ([], vals) /\
      map (fun kv => (fst kv, get_value (snd kv))) vals =
      map (fun kv => (fst kv, get_value (snd kv))) d.
Proof.
  induction 1 as [|f fs Hf _ IH]; intros [|[k x] d] Hconf Hinput; simpl in Hconf;
    try discriminate Hconf.
  - exists []. split; reflexivity.
  - apply andb_true_iff in Hconf. destruct Hconf as [Hconf Hrest].
    apply andb_true_iff in Hconf. destruct Hconf as [Hk Hx].
    apply String.eqb_eq in Hk. subst k.
    destruct (IH d Hrest) as (vals & Hvals & Hplain).
    { intros k' x' Hin. apply Hinput. right. exact Hin. }
    destruct (field_revalidates (annotation f) x (loc ++ [Name (fname f)]) Hf Hx)
      as (x' & Hx' & Hplain').
    exists ((fname f, x') :: vals). simpl.
    rewrite Hvals, (Hinput (fname f) x (or_introl eq_refl)), Hx'.
    split; [reflexivity|]. simpl. rewrite Hplain', Hplain. reflexivity.
Qed.

Lemma conforming_values_revalidate (t : ty) : revalidates py t.
Proof.
  induction t as [| | | |t IH|t IH|t IH|c IH] using ty_ind_nested; intros v loc Hconf.
  - destruct v; try discriminate Hconf. eexists. split; reflexivity.
  - destruct v; try discriminate Hconf. eexists. split; reflexivity.
  - destruct v; try discriminate Hconf. eexists. split; reflexivity.
  - exists (get_value v). split; [reflexivity | apply get_value_idempotent].
  - destruct v; try exact (IH _ loc Hconf). exists VNone. split; reflexivity.
  - destruct v as [| | | | |l| |]; try discriminate Hconf.
    simpl in Hconf. rewrite forallb_forall in Hconf.
    change (get_value (VList l)) with (VList (map get_value l)).
    rewrite apply_validators_list.
    assert (Hseq : forall i, exists l',
               validate_sequence (ModelField_validate py t) loc i (map get_value l) =
               ([], l') /\
               map get_value l' = map get_value l).
    { induction l as [|x l IHl]; intros i; [exists []; split; reflexivity|].
      destruct (IHl (fun y Hy => Hconf y (or_intror Hy)) (S i)) as (l' & Hl' & Hplain).
      destruct (field_revalidates t x (loc ++ [Index i]) IH (Hconf x (or_introl eq_refl)))
        as (x' & Hx' & Hplain').
      exists (x' :: l'). simpl. rewrite Hl', Hx'. split; [reflexivity|].
      simpl. rewrite Hplain', Hplain. reflexivity. }
    destruct (Hseq 0) as (l' & -> & Hplain).
    exists (VList l'). split; [reflexivity|]. simpl. rewrite Hplain. reflexivity.
  - destruct v as [| | | | | |d|]; try discriminate Hconf.
    simpl in Hconf. rewrite forallb_forall in Hconf.
    change (get_value (VDict d))
      with (VDict (map (fun kv => (fst kv, get_value (snd kv))) d)).
    rewrite apply_validators_dict.
    assert (Hmap : exists d',
               validate_mapping py (ModelField_validate py t) loc
                 (map (fun kv => (fst kv, get_value (snd kv))) d) = ([], d') /\
               map (fun kv => (fst kv, get_value (snd kv))) d' =
               map (fun kv => (fst kv, get_value (snd kv))) d).
    { induction d as [|[k x] d IHd]; [exists []; split; reflexivity|].
      destruct (IHd (fun y Hy => Hconf y (or_intror Hy))) as (d' & Hd' & Hplain).
      destruct (field_revalidates t x (loc ++ [Name k]) IH (Hconf (k, x) (or_introl eq_refl)))
        as (x' & Hx' & Hplain').
      exists ((k, x') :: d'). simpl. rewrite Hd', Hx'. split; [reflexivity|].
      simpl. rewrite Hplain', Hplain. reflexivity. }
    destruct Hmap as (d' & -> & Hplain).
    exists (VDict d'). split; [reflexivity|]. simpl. rewrite Hplain. reflexivity.
  - destruct v as [| | | | | | |n d]; try discriminate Hconf.
    simpl in Hconf.
    apply andb_true_iff in Hconf. destruct Hconf as [Hconf Hfields].
    apply andb_true_iff in Hconf. destruct Hconf as [_ Hdistinct].
    change (get_value (VModel n d))
      with (VDict (map (fun kv => (fst kv, get_value (snd kv))) d)).
    rewrite apply_validators_model.
    destruct (validate_fields_revalidates (cfields c) loc
                (map (fun kv => (fst kv, get_value (snd kv))) d) IH d Hfields)
      as (vals & -> & Hplain).
    { intros k x Hin. apply dict_get_distinct.
      - rewrite map_map. simpl.
        change (map (fun kv : string * value => fst kv) d) with (keys d).
        rewrite (fields_conform_keys _ _ _ Hfields). exact Hdistinct.
      - apply in_map_iff. exists (k, x). split; [reflexivity | exact Hin]. }
    exists (VModel (cname c) vals). split; [reflexivity|]. simpl.
    rewrite Hplain. reflexivity.
Qed.

Lemma BaseModel_init_of_dict (c : ModelClass) (self : value) :
  conforms (TModel c) self = true ->
  exists d self',
    BaseModel_dict self = VDict d /\
    BaseModel_init py c d = Returns self' /\
    BaseModel_dict self' = VDict d.
Proof.
  intros Hconf.
  destruct (conforming_values_revalidate (TModel c) self [] Hconf) as (v' & Hv' & Hplain).
  destruct self as [| | | | | | |n d]; try discriminate Hconf.
  exists (map (fun kv => (fst kv, get_value (snd kv))) d).
  change (get_value (VModel n d))
    with (VDict (map (fun kv => (fst kv, get_value (snd kv))) d)) in Hv', Hplain.
  rewrite apply_validators_model in Hv'.
  unfold BaseModel_init, validate_model.
  destruct (validate_fields (ModelField_validate py) (cfields c) []
              (map (fun kv => (fst kv, get_value (snd kv))) d)) as [[|e errors] vals];
    simpl in Hv'; [|discriminate Hv'].
  injection Hv' as <-.
  exists (VModel (cname c) vals). split; [reflexivity|]. split; [reflexivity|].
  exact Hplain.
Qed.
End RoundTrip.

Lemma conforms_has_type (t : ty) : forall v, conforms t v = true -> has_type t v = true.
Proof.
  induction t as [| | | |t IH|t IH|t IH|c] using ty_ind; intros v; simpl; try tauto.
  - destruct v; auto.
  - destruct v; auto. rewrite !forallb_forall. intros H x Hx. apply IH, H, Hx.
  - destruct v; auto. rewrite !forallb_forall. intros H x Hx. apply IH, (H x Hx).
  - destruct v; auto. intros H.
    apply andb_true_iff in H. destruct H as [H _].
    apply andb_true_iff in H. destruct H as [H _]. exact H.
Qed.

Lemma conforming_kwargs_valid (c : ModelClass) (kw : items_t) :
  conforming_kwargs c kw = true -> valid_kwargs c kw = true.
Proof.
  unfold conforming_kwargs, valid_kwargs. rewrite !forallb_forall.
  intros H f Hf. specialize (H f Hf). unfold constructed_with in H. unfold field_ok.
  destruct (dict_get (fname f) kw).
  - apply conforms_has_type. exact H.
  - destruct (fdefault f); [discriminate H | reflexivity].
Qed.

Lemma fields_conform_bindings (kw : items_t) (fs : list ModelField) :
  forallb (fun f => match constructed_with f kw with
                    | Some v => conforms (annotation f) v
                    | None => false
                    end) fs = true ->
  fields_conform conforms fs (map (binding kw) fs) = true.
Proof.
  induction fs as [|f fs IH]; simpl; intros H; [reflexivity|].
  apply andb_true_iff in H. destruct H as [Hf Hfs].
  rewrite String.eqb_refl, (IH Hfs).
  destruct (constructed_with f kw); [rewrite Hf; reflexivity | discriminate Hf].
Qed.

Lemma models_distinct (c : ModelClass) :
  In c models -> distinct (map fname (cfields c)) = true.
Proof.
  intros [<-|[<-|[<-|[<-|[<-|[<-|[]]]]]]]; reflexivity.
Qed.

(** X13. A well-formed record is constructed again from its own
    mapping: for an instance of any record type whose values have their
    declared types all the way down, passing the items of its [dict()]
    (its [to_dict()], on [Summary], [Message] and [Memory]) to the
    constructor succeeds and gives an instance with the same mapping,
    equal to the first under [==] when that one is regular. *)
Theorem record_is_reconstructed_from_its_mapping (py : Builtins) (c : ModelClass)
    (self : value) :
  In c models ->
  conforms (TModel c) self = true ->
  exists d self',
    BaseModel_dict self = VDict d /\
    BaseModel_init py c d = Returns self' /\
    BaseModel_dict self' = VDict d /\
    (In c [Summary; Message; Memory] ->
     to_dict self = Returns (VDict d) /\ to_dict self' = Returns (VDict d)) /\
    (regular self = true -> BaseModel_eq self self' = true).
Proof.
  intros Hc Hconf.
  destruct (BaseModel_init_of_dict py c self Hconf) as (d & self' & Hd & Hinit & Hd').
  exists d, self'. split; [exact Hd|]. split; [exact Hinit|]. split; [exact Hd'|].
  pose proof (BaseModel_init_returns py c d self' Hinit) as (vals & Hself' & _).
  destruct self as [| | | | | | |n d0]; try discriminate Hconf.
  simpl in Hconf. apply andb_true_iff in Hconf. destruct Hconf as [Hn _].
  apply andb_true_iff in Hn. destruct Hn as [Hn _]. apply String.eqb_eq in Hn. subst n.
  split.
  - intros H3. subst self'.
    destruct H3 as [<-|[<-|[<-|[]]]];
      (split; [rewrite <- Hd | rewrite <- Hd']; reflexivity).
  - intros Hreg. subst self'. unfold BaseModel_eq. rewrite Hd', Hd.
    apply py_eq_refl. rewrite <- Hd. apply regular_get_value. exact Hreg.
Qed.

Lemma record_is_reconstructed_from_its_mapping_witness :
  let self :=
    VModel "Memory"
      [("messages",
        VList [VModel "Message"
                 [("role", VStr "user"); ("content", VStr "hi"); ("uuid", VStr "m1");
                  ("created_at", VNone); ("token_count", VInt 1);
                  ("metadata", VDict [("lang", VStr "en")])]]);
       ("metadata", VNone);
       ("summary",
        VModel "Summary"
          [("uuid", VStr "s1"); ("created_at", VStr "2024-01-01T00:00:00Z");
           ("content", VStr "recap"); ("recent_message_uuid", VStr "m1");
           ("token_count", VInt 42)]);
       ("uuid", VNone); ("created_at", VNone); ("token_count", VInt 43)] in
  exists d self',
    to_dict self = Returns (VDict d) /\
    BaseModel_init refusing Memory d = Returns self' /\
    to_dict self' = Returns (VDict d) /\
    BaseModel_eq self self' = true.
Proof.
  intros self.
  destruct (record_is_reconstructed_from_its_mapping refusing Memory self)
    as (d & self' & _ & Hinit & _ & Hto & Heq).
  - simpl. tauto.
  - reflexivity.
  - exists d, self'. destruct Hto as [Hto Hto']; [simpl; tauto|].
    split; [exact Hto|]. split; [exact Hinit|]. split; [exact Hto'|].
    apply Heq. reflexivity.
Defined.

(** X14. From arguments to the wire and back: arguments that conform
    (with [token_count] given, for a [Summary]) construct a record whose
    [dict()], passed to the constructor again, constructs a record with
    that same [dict()]. *)
Theorem construct_dict_construct (py : Builtins) (c : ModelClass) (kw : items_t) :
  In c models ->
  conforming_kwargs c kw = true ->
  exists self d self',
    BaseModel_init py c kw = Returns self /\
    BaseModel_dict self = VDict d /\
    BaseModel_init py c d = Returns self' /\
    BaseModel_dict self' = VDict d.
Proof.
  intros Hc Hkw.
  pose proof (BaseModel_init_valid py c kw (conforming_kwargs_valid c kw Hkw)) as Hinit.
  assert (Hconf : conforms (TModel c) (VModel (cname c) (map (binding kw) (cfields c))) = true).
  { simpl. rewrite String.eqb_refl, (models_distinct c Hc). simpl.
    apply fields_conform_bindings. exact Hkw. }
  destruct (BaseModel_init_of_dict py c _ Hconf) as (d & self' & Hd & Hinit' & Hd').
  eauto 8.
Qed.

Lemma construct_dict_construct_witness :
  exists self d self',
    BaseModel_init refusing MemorySearchPayload
      [("text", VStr "tea"); ("search_type", VStr "mmr");
       ("mmr_lambda", VFloat (S754_finite false 4503599627370496 (-53)) 1)] = Returns self /\
    BaseModel_dict self = VDict d /\
    BaseModel_init refusing MemorySearchPayload d = Returns self' /\
    BaseModel_dict self' = VDict d.
Proof.
  apply construct_dict_construct; [simpl; tauto | reflexivity].
Defined.

(** X15. A constructed record whose values are regular equals the
    mapping its [dict()] returns, on either side of [==]. *)
Theorem record_equals_its_mapping (py : Builtins) (c : ModelClass) (kw : items_t)
    (self : value) :
  BaseModel_init py c kw = Returns self ->
  regular self = true ->
  BaseModel_eq self (BaseModel_dict self) = true /\
  py_eq (BaseModel_dict self) self = true.
Proof.
  intros Hinit Hreg. apply BaseModel_init_returns in Hinit. destruct Hinit as (d & -> & _).
  pose proof (py_eq_refl _ (regular_get_value _ Hreg)) as Hrefl.
  split.
  - exact Hrefl.
  - unfold BaseModel_dict. rewrite <- py_eq_get_value, get_value_idempotent. exact Hrefl.
Qed.

Lemma record_equals_its_mapping_witness :
  exists self,
    BaseModel_init refusing Message [("role", VStr "user"); ("content", VStr "hi")] =
      Returns self /\
    BaseModel_eq self (BaseModel_dict self) = true /\
    py_eq (BaseModel_dict self) self = true.
Proof.
  eexists. split; [reflexivity|].
  apply (record_equals_its_mapping refusing Message
           [("role", VStr "user"); ("content", VStr "hi")]); reflexivity.
Defined.
